(** * information_board: the departure board of draw_matrix.cc

    A shallow embedding of [draw_matrix.cc]: the ticker builder
    [update_scroll_messages], the JSON loader [load_json], the countdown
    computation and the row and ticker drawing of the main loop, followed
    by the properties of the board's specification.

    Conventions.
    - [std::string] is [string]: a sequence of bytes, so that
      [String.length] is [std::string::size] and the Japanese literals
      are their UTF-8 bytes, as in the C++ source.
    - [int] values are [Z].  The explicit [size_t]-to-[int] cast of the
      ticker is written with its 32-bit wrap-around ([int_wrap]); the
      time arithmetic is left in [Z] (an HH:MM time keeps every value far
      from the limits of [int]).
    - A C++ exception is the [Throw] outcome of [result]; statements that
      mutate [DisplayData] live in the state-and-exception monad [M]. *)

From Stdlib Require Import ZArith List String Ascii Bool Lia DecimalString.
Import ListNotations.

Set Warnings "-register-all".

Open Scope string_scope.
Open Scope Z_scope.

(* ================================================================== *)
(** ** Colours *)

(** [struct ColorRGB { uint8_t r, g, b; }]; [rgb_matrix::Color] has the
    same three fields and is represented by the same record. *)
Record ColorRGB : Type := mkColor { r : Z; g : Z; b : Z }.

Definition Color : Type := ColorRGB.

Definition COL_BLACK : ColorRGB := mkColor 0 0 0.
Definition COL_WHITE : ColorRGB := mkColor 255 255 255.
Definition COL_RED : ColorRGB := mkColor 255 0 0.
Definition COL_GREEN : ColorRGB := mkColor 0 255 0.
Definition COL_BLUE : ColorRGB := mkColor 0 0 255.
Definition COL_MAGENTA : ColorRGB := mkColor 255 0 255.
Definition COL_ORANGE : ColorRGB := mkColor 255 172 0.
Definition COL_YELLOW : ColorRGB := mkColor 255 255 0.
Definition COL_CYAN : ColorRGB := mkColor 0 255 255.

Definition ToMatrixColor (c : ColorRGB) : Color := mkColor (r c) (g c) (b c).

(** The component-wise comparison the main loop writes out
    ([a.r == b.r && a.g == b.g && a.b == b.b]). *)
Definition same_rgb (a c : ColorRGB) : bool :=
  (r a =? r c) && (g a =? g c) && (b a =? b c).

(* ================================================================== *)
(** ** Exceptions *)

Inductive exn : Type :=
| type_error (id : Z)      (* nlohmann::json::type_error *)
| parse_error (id : Z).    (* nlohmann::json::parse_error *)

Inductive result (A : Type) : Type :=
| Return (a : A)
| Throw (e : exn).

Arguments Return {A} a.
Arguments Throw {A} e.

(* ================================================================== *)
(** ** JSON values (nlohmann::json)

    Numbers are kept as integers: the board never reads a number.  An
    object is its list of members in iteration order. *)

Inductive json : Type :=
| Jnull
| Jboolean (v : bool)
| Jnumber (v : Z)
| Jstring (v : string)
| Jarray (v : list json)
| Jobject (v : list (string * json)).

Definition is_null (j : json) : bool :=
  match j with Jnull => true | _ => false end.

Definition is_array (j : json) : bool :=
  match j with Jarray _ => true | _ => false end.

(** [json::empty()]: null is empty, a container is empty when it has no
    element, every other value is not. *)
Definition empty (j : json) : bool :=
  match j with
  | Jnull => true
  | Jarray [] => true
  | Jobject [] => true
  | _ => false
  end.

Fixpoint find (key : string) (m : list (string * json)) : option json :=
  match m with
  | [] => None
  | (k, v) :: m' => if String.eqb k key then Some v else find key m'
  end.

(** [json::contains(key)]: false on anything but an object. *)
Definition contains (j : json) (key : string) : bool :=
  match j with
  | Jobject m => match find key m with Some _ => true | None => false end
  | _ => false
  end.

(** [j[key]], used by the source only behind [contains]. *)
Definition at_key (j : json) (key : string) : json :=
  match j with
  | Jobject m => match find key m with Some v => v | None => Jnull end
  | _ => Jnull
  end.

(** The elements a range-for visits. *)
Definition elements (j : json) : list json :=
  match j with
  | Jnull => []
  | Jarray l => l
  | Jobject m => map snd m
  | _ => [j]
  end.

(** [j.value(key, default)] at type [std::string]: type_error 306 when
    [j] is not an object, type_error 302 when the member is not a string,
    the default when the member is missing. *)
Definition value (j : json) (key default : string) : result string :=
  match j with
  | Jobject m =>
      match find key m with
      | Some (Jstring s) => Return s
      | Some _ => Throw (type_error 302)
      | None => Return default
      end
  | _ => Throw (type_error 306)
  end.

(* ================================================================== *)
(** ** Calendar time

    [std::tm], and [localtime] / [mktime] of a time zone with a fixed
    offset [gmtoff] from UTC (seconds east; the board runs on Japanese
    time, which has no daylight saving). *)

Record tm : Type := mkTm {
  tm_sec : Z; tm_min : Z; tm_hour : Z;
  tm_mday : Z; tm_mon : Z; tm_year : Z; tm_wday : Z
}.

Definition days_from_civil (y m d : Z) : Z :=
  let y := if m <=? 2 then y - 1 else y in
  let era := y / 400 in
  let yoe := y - era * 400 in
  let doy := (153 * (if 2 <? m then m - 3 else m + 9) + 2) / 5 + d - 1 in
  let doe := yoe * 365 + yoe / 4 - yoe / 100 + doy in
  era * 146097 + doe - 719468.

Definition civil_from_days (z : Z) : Z * Z * Z :=
  let z := z + 719468 in
  let era := z / 146097 in
  let doe := z - era * 146097 in
  let yoe := (doe - doe / 1460 + doe / 36524 - doe / 146096) / 365 in
  let doy := doe - (365 * yoe + yoe / 4 - yoe / 100) in
  let mp := (5 * doy + 2) / 153 in
  let d := doy - (153 * mp + 2) / 5 + 1 in
  let m := if mp <? 10 then mp + 3 else mp - 9 in
  ((yoe + era * 400 + (if m <=? 2 then 1 else 0), m), d).

Section LocalTime.

Variable gmtoff : Z.

Definition localtime (t : Z) : tm :=
  let l := t + gmtoff in
  let days := l / 86400 in
  let secs := l mod 86400 in
  let '(y, m, d) := civil_from_days days in
  mkTm (secs mod 60) ((secs / 60) mod 60) (secs / 3600)
       d (m - 1) (y - 1900) ((days + 4) mod 7).

(** [mktime] normalises its argument: fields out of range carry into
    the next unit. *)
Definition mktime (t : tm) : Z :=
  let y := tm_year t + 1900 + tm_mon t / 12 in
  let m := tm_mon t mod 12 + 1 in
  (days_from_civil y m 1 + (tm_mday t - 1)) * 86400
  + tm_hour t * 3600 + tm_min t * 60 + tm_sec t - gmtoff.

End LocalTime.

(* ================================================================== *)
(** ** Number formatting *)

(** [std::to_string(int)]. *)
Definition to_string (v : Z) : string := NilZero.string_of_int (Z.to_int v).

(** [%02d] of [sprintf]. *)
Definition fmt_02d (v : Z) : string :=
  let s := to_string v in
  if Nat.ltb (String.length s) 2 then "0" ++ s else s.

(* ================================================================== *)
(** ** DisplayData and the monad of its updates *)

Record DisplayData : Type := mkData {
  departure : json;
  operation : json;
  weather : json;
  scroll_messages : list string;
  scroll_colors : list ColorRGB
}.

(** A statement: it ends normally or by an exception, and leaves a
    [DisplayData] behind in both cases. *)
Definition M (A : Type) : Type := DisplayData -> result A * DisplayData.

Definition ret {A : Type} (a : A) : M A := fun d => (Return a, d).

Definition bind {A B : Type} (m : M A) (k : A -> M B) : M B :=
  fun d =>
    match m d with
    | (Return a, d') => k a d'
    | (Throw e, d') => (Throw e, d')
    end.

Declare Scope stmt_scope.
Delimit Scope stmt_scope with stmt.

Notation "x <- m ;; k" := (bind m (fun x => k))
  (at level 100, m at next level, right associativity) : stmt_scope.
Notation "m ;;; k" := (bind m (fun _ => k))
  (at level 100, right associativity) : stmt_scope.

Definition lift {A : Type} (x : result A) : M A := fun d => (x, d).

(** [try { body } catch (...) { }]. *)
Definition try_catch_all (body : M unit) : M unit :=
  fun d =>
    match body d with
    | (Return u, d') => (Return u, d')
    | (Throw _, d') => (Return tt, d')
    end.

Definition when (c : bool) (body : M unit) : M unit :=
  if c then body else ret tt.

Fixpoint for_each (l : list json) (body : json -> M unit) : M unit :=
  match l with
  | [] => ret tt
  | item :: l' => (body item ;;; for_each l' body)%stmt
  end.

Definition clear_messages : M unit :=
  fun d => (Return tt,
            mkData (departure d) (operation d) (weather d) [] (scroll_colors d)).

Definition clear_colors : M unit :=
  fun d => (Return tt,
            mkData (departure d) (operation d) (weather d) (scroll_messages d) []).

Definition push_back_message (s : string) : M unit :=
  fun d => (Return tt,
            mkData (departure d) (operation d) (weather d)
                   (scroll_messages d ++ [s]) (scroll_colors d)).

Definition push_back_color (c : ColorRGB) : M unit :=
  fun d => (Return tt,
            mkData (departure d) (operation d) (weather d)
                   (scroll_messages d) (scroll_colors d ++ [c])).

Definition get {A : Type} (f : DisplayData -> A) : M A :=
  fun d => (Return (f d), d).

(* ================================================================== *)
(** ** update_scroll_messages *)

Definition wday_name : list string :=
  ["日"; "月"; "火"; "水"; "木"; "金"; "土"].

(** The [sprintf] of the date item. *)
Definition date_buf (tm_now : tm) : string :=
  "本日は " ++ fmt_02d (tm_mon tm_now + 1) ++ "月"
    ++ fmt_02d (tm_mday tm_now) ++ "日（"
    ++ nth (Z.to_nat (tm_wday tm_now)) wday_name "" ++ "）です".

Definition suspend_body (item : json) : M unit :=
  (name <- lift (value item "name" "") ;;
   detail <- lift (value item "detail" "詳細不明") ;;
   push_back_message ("【運転見合わせ】 " ++ name ++ ": " ++ detail) ;;;
   push_back_color COL_RED)%stmt.

Definition delay_body (item : json) : M unit :=
  (name <- lift (value item "name" "") ;;
   detail <- lift (value item "detail" "詳細不明") ;;
   push_back_message ("【遅延】 " ++ name ++ ": " ++ detail) ;;;
   push_back_color COL_YELLOW)%stmt.

Definition weather_body (w : json) : M unit :=
  (area <- lift (value w "area_name" "不明") ;;
   weather <- lift (value w "weather" "不明") ;;
   office <- lift (value w "publishing_office" " 気象庁") ;;
   report_time <- lift (value w "report_time" " ") ;;
   push_back_message ("【" ++ office ++ " " ++ report_time ++ "発表】"
                        ++ area ++ "の天気: " ++ weather) ;;;
   push_back_color COL_WHITE)%stmt.

Definition error_message : string :=
  "エラーが発生しています。情報が取得できていません".

Definition normal_message : string := "平常運転".

Section Rebuild.

Variable gmtoff : Z.

(** The date item; [t_now] is the value [std::time(nullptr)] returns. *)
Definition date_block (t_now : Z) : M unit :=
  (let tm_now := localtime gmtoff t_now in
   push_back_message (date_buf tm_now) ;;;
   push_back_color COL_WHITE)%stmt.

(** 1. suspensions and delays. *)
Definition operation_block : M unit :=
  (op <- get operation ;;
   when (negb (is_null op))
     (when (contains op "suspend" && is_array (at_key op "suspend"))
        (for_each (elements (at_key op "suspend")) suspend_body) ;;;
      when (contains op "delay" && is_array (at_key op "delay"))
        (for_each (elements (at_key op "delay")) delay_body)))%stmt.

(** 2. weather. *)
Definition weather_block : M unit :=
  (w <- get weather ;;
   when (negb (is_null w)) (try_catch_all (weather_body w)))%stmt.

Definition error_block : M unit :=
  (dep <- get departure ;;
   when (is_null dep || empty dep)
     (push_back_message error_message ;;;
      push_back_color COL_RED))%stmt.

Definition normal_block : M unit :=
  (msgs <- get scroll_messages ;;
   when (match msgs with [] => true | _ :: _ => false end)
     (push_back_message normal_message ;;;
      push_back_color COL_GREEN))%stmt.

Definition update_scroll_messages (t_now : Z) : M unit :=
  (clear_messages ;;;
   clear_colors ;;;
   date_block t_now ;;;
   operation_block ;;;
   weather_block ;;;
   error_block ;;;
   normal_block)%stmt.

End Rebuild.

(* ================================================================== *)
(** ** load_json

    The file system is a function from paths to what [std::ifstream]
    meets there; [parse] is the library's parser behind [i >> j]. *)

Inductive file : Type :=
| OpenFails                  (* no such file, or no permission *)
| ReadFails                  (* opens, but delivers no byte *)
| Content (bytes : string).

Definition is_open (i : file) : bool :=
  match i with OpenFails => false | _ => true end.

Section Loader.

Variable parse : string -> result json.

(** [i >> j]: a stream that cannot be read ends at once, which the
    parser reports as parse_error 101. *)
Definition extract (i : file) : result json :=
  match i with
  | Content bytes => parse bytes
  | _ => Throw (parse_error 101)
  end.

Definition load_json (fs : string -> file) (path : string) : result json :=
  let i := fs path in
  if negb (is_open i) then Return Jnull
  else
    match extract i with
    | Return j => Return j
    | Throw _ => Return Jnull      (* catch (...) *)
    end.

End Loader.

(* ================================================================== *)
(** ** sscanf(dep_time, "%d:%d", &dep_hour, &dep_min)

    The result is the list of the values assigned; the source tests that
    there are two of them. *)

Definition isspace (c : ascii) : bool :=
  let n := nat_of_ascii c in
  (Nat.eqb n 32 || (Nat.leb 9 n && Nat.leb n 13))%bool.

Definition isdigit (c : ascii) : bool :=
  let n := nat_of_ascii c in (Nat.leb 48 n && Nat.leb n 57)%bool.

Fixpoint skip_space (s : string) : string :=
  match s with
  | String c s' => if isspace c then skip_space s' else s
  | EmptyString => s
  end.

Fixpoint scan_digits (s : string) (acc : Z) : Z * string :=
  match s with
  | String c s' =>
      if isdigit c
      then scan_digits s' (10 * acc + (Z.of_nat (nat_of_ascii c) - 48))
      else (acc, s)
  | EmptyString => (acc, s)
  end.

(** One [%d]: blanks, an optional sign, at least one digit. *)
Definition scan_d (s : string) : option (Z * string) :=
  let s := skip_space s in
  let '(neg, s) :=
    match s with
    | String "-" s' => (true, s')
    | String "+" s' => (false, s')
    | _ => (false, s)
    end in
  match s with
  | String c _ =>
      if isdigit c
      then let '(v, rest) := scan_digits s 0 in
           Some (if neg then - v else v, rest)
      else None
  | EmptyString => None
  end.

Definition sscanf_d_colon_d (s : string) : list Z :=
  match scan_d s with
  | None => []
  | Some (dep_hour, rest) =>
      match rest with
      | String ":" rest' =>
          match scan_d rest' with
          | Some (dep_min, _) => [dep_hour; dep_min]
          | None => [dep_hour]
          end
      | _ => [dep_hour]
      end
  end.

(* ================================================================== *)
(** ** The main loop: departure rows *)

(** One [rgb_matrix::DrawText] call on the off-screen canvas. *)
Record DrawText : Type := mkDrawText {
  dt_x : Z; dt_y : Z; dt_color : Color; dt_text : string
}.

Definition type_color_map : list (string * ColorRGB) :=
  [ ("快速急行", COL_ORANGE); ("通勤特快", COL_MAGENTA);
    ("中央特快", COL_BLUE); ("区間快速", COL_GREEN);
    ("各駅停車", COL_BLUE); ("新快速", COL_BLUE);
    ("特快", COL_MAGENTA); ("特急", COL_RED); ("急行", COL_RED);
    ("快速", COL_RED); ("準急", COL_GREEN); ("普通", COL_GREEN);
    ("各駅", COL_BLUE); ("各停", COL_BLUE) ].

(** [s.find(key) != std::string::npos]. *)
Fixpoint has_substring (key s : string) : bool :=
  String.prefix key s ||
  match s with
  | String _ s' => has_substring key s'
  | EmptyString => false
  end.

Fixpoint type_color (map : list (string * ColorRGB)) (line_type : string)
  : Color :=
  match map with
  | [] => ToMatrixColor COL_WHITE
  | (key, val_color) :: map' =>
      if has_substring key line_type then ToMatrixColor val_color
      else type_color map' line_type
  end.

Definition row_y_positions : list Z := [9; 20].

Section Board.

Variable gmtoff : Z.

(** [tm_dep] as [mktime] receives it. *)
Definition candidate (tm_now_calc : tm) (dep_hour dep_min : Z) : tm :=
  let tm_dep :=
    mkTm 0 dep_min dep_hour (tm_mday tm_now_calc) (tm_mon tm_now_calc)
         (tm_year tm_now_calc) (tm_wday tm_now_calc) in
  if (dep_hour <? 3) && (3 <=? tm_hour tm_now_calc)
  then mkTm (tm_sec tm_dep) (tm_min tm_dep) (tm_hour tm_dep)
            (tm_mday tm_dep + 1) (tm_mon tm_dep) (tm_year tm_dep)
            (tm_wday tm_dep)
  else tm_dep.

Definition diff_seconds (t_now_calc dep_hour dep_min : Z) : Z :=
  let tm_now_calc := localtime gmtoff t_now_calc in
  let t_dep := mktime gmtoff (candidate tm_now_calc dep_hour dep_min) in
  t_dep - t_now_calc.

(** [static_cast<int>(diff_seconds / 60.0) + 1]: the conversion to
    [int] drops the fraction, that is, rounds toward zero. *)
Definition diff_minutes (t_now_calc dep_hour dep_min : Z) : Z :=
  Z.quot (diff_seconds t_now_calc dep_hour dep_min) 60 + 1.

(** [time_text] and [time_col] of one entry. *)
Definition countdown (status dep_time : string) (t_now_calc : Z)
  : string * Color :=
  if String.eqb status "始発" then ("始発", ToMatrixColor COL_BLUE)
  else if String.eqb status "終電" then ("終電", ToMatrixColor COL_RED)
  else
    match sscanf_d_colon_d dep_time with
    | [dep_hour; dep_min] =>
        let diff_minutes := diff_minutes t_now_calc dep_hour dep_min in
        if 99 <? diff_minutes then ("始発", ToMatrixColor COL_BLUE)
        else
          (to_string diff_minutes ++ "分後",
           if diff_minutes <=? 17 then ToMatrixColor COL_RED
           else if diff_minutes <=? 20 then ToMatrixColor COL_YELLOW
           else ToMatrixColor COL_GREEN)
    | _ => ("--:--", ToMatrixColor COL_GREEN)
    end.

(** [dest_text] and [dest_col] of the A side. *)
Definition dest_field (time_col : Color) (destination : string)
  : string * Color :=
  if same_rgb time_col COL_RED
  then ("駅まで走れ", ToMatrixColor COL_RED)
  else if same_rgb time_col COL_YELLOW
  then ("今すぐ出発", ToMatrixColor COL_YELLOW)
  else (destination, ToMatrixColor COL_ORANGE).

(** The three texts of one row; [show_alternate_display] selects the
    B side. *)
Definition draw_row (width : Z) (show_alternate_display : bool) (y : Z)
    (dest_name line_type dep_time destination status : string)
    (t_now_calc : Z) : list DrawText :=
  let col_type := type_color type_color_map line_type in
  let '(time_text, time_col) := countdown status dep_time t_now_calc in
  if show_alternate_display
  then
    [ mkDrawText 0 y col_type line_type;
      mkDrawText 50 y (ToMatrixColor COL_GREEN) dep_time;
      mkDrawText (width - 50) y (ToMatrixColor COL_ORANGE) destination ]
  else
    let direction_text := dest_name ++ "方面" in
    let '(dest_text, dest_col) := dest_field time_col destination in
    [ mkDrawText 0 y (ToMatrixColor COL_WHITE) direction_text;
      mkDrawText 45 y time_col time_text;
      mkDrawText (width - 50) y dest_col dest_text ].

(** [val["segments"][0]]: only an array can be indexed by a number
    (type_error 305 otherwise). *)
Definition first_segment (segments : json) : result json :=
  match segments with
  | Jarray (seg :: _) => Return seg
  | _ => Throw (type_error 305)
  end.

Definition rbind {A B : Type} (x : result A) (k : A -> result B)
  : result B :=
  match x with Return a => k a | Throw e => Throw e end.

(** The body of the loop over [departure.items()] for one member. *)
Definition draw_entry (width : Z) (show_alternate_display : bool) (y : Z)
    (dest_name : string) (val : json) (t_now_calc : Z)
  : result (list DrawText) :=
  if negb (is_null val) && contains val "segments"
     && negb (empty (at_key val "segments"))
  then
    rbind (first_segment (at_key val "segments")) (fun seg =>
    rbind (value seg "type" "") (fun line_type =>
    rbind (value val "departure_time" "--:--") (fun dep_time =>
    rbind (value seg "destination" "") (fun destination =>
    rbind (value val "status" "") (fun status =>
    Return (draw_row width show_alternate_display y dest_name line_type
                     dep_time destination status t_now_calc))))))
  else Return [].

(** The members [items()] visits: those of an object, the elements of an
    array under their indices, a scalar under the empty key. *)
Definition items (j : json) : list (string * json) :=
  match j with
  | Jnull => []
  | Jobject m => m
  | Jarray l =>
      combine (map (fun n => to_string (Z.of_nat n)) (seq 0 (List.length l))) l
  | _ => [("", j)]
  end.

(** The loop over the members; [clock] gives the time each row reads.
    Two rows at most are visited. *)
Fixpoint draw_items (width : Z) (show_alternate_display : bool)
    (clock : nat -> Z) (its : list (string * json)) (current_row : nat)
  : result (list DrawText) :=
  match its with
  | [] => Return []
  | (dest_name, val) :: its' =>
      if Nat.leb 2 current_row then Return []
      else
        rbind (draw_entry width show_alternate_display
                          (nth current_row row_y_positions 0)
                          dest_name val (clock current_row)) (fun row =>
        rbind (draw_items width show_alternate_display clock its'
                          (S current_row)) (fun rows =>
        Return (row ++ rows)%list))
  end.

(** Step 3 of a frame. *)
Definition draw_departures (width : Z) (show_alternate_display : bool)
    (clock : nat -> Z) (data : DisplayData) : result (list DrawText) :=
  if negb (is_null (departure data)) && negb (empty (departure data))
  then draw_items width show_alternate_display clock
                  (items (departure data)) 0
  else Return [].

End Board.

(** The panel of [main]: 128 columns, one chain. *)
Definition matrix_width : Z := 128.

(* ================================================================== *)
(** ** The main loop: ticker *)

(** A value of type [int] after a conversion or an operation that left
    the 32-bit range. *)
Definition int_wrap (z : Z) : Z := (z + 2 ^ 31) mod 2 ^ 32 - 2 ^ 31.

Definition INT_MAX : Z := 2 ^ 31 - 1.

(** The scroll cursor the main loop owns. *)
Record Ticker : Type := mkTicker { scroll_x : Z; msg_index : nat }.

(** [msg_index] after [if (msg_index >= size) msg_index = 0]. *)
Definition checked_index (msgs : list string) (msg_index : nat) : nat :=
  if Nat.leb (List.length msgs) msg_index then 0%nat else msg_index.

(** [(int)msg.size() * 6]. *)
Definition text_width (msg : string) : Z :=
  int_wrap (int_wrap (Z.of_nat (String.length msg)) * 6).

(** Step 5 of a frame.  The colour lookup has no bounds check of its
    own; [COL_BLACK] stands for what an index out of range would read. *)
Definition draw_ticker (width : Z) (data : DisplayData) (st : Ticker)
  : list DrawText * Ticker :=
  match scroll_messages data with
  | [] => ([], st)
  | _ :: _ =>
      let msg_index := checked_index (scroll_messages data) (msg_index st) in
      let msg := nth msg_index (scroll_messages data) "" in
      let msg_col :=
        ToMatrixColor (nth msg_index (scroll_colors data) COL_BLACK) in
      let cmd := mkDrawText (scroll_x st) 31 msg_col msg in
      let scroll_x := int_wrap (scroll_x st - 1) in
      if scroll_x <? - text_width msg
      then ([cmd], mkTicker width (S msg_index))
      else ([cmd], mkTicker scroll_x msg_index)
  end.

(** [n] consecutive frames over the same data: the texts drawn, in
    order, and the cursor left behind. *)
Fixpoint run_ticker (width : Z) (data : DisplayData) (n : nat) (st : Ticker)
  : list DrawText * Ticker :=
  match n with
  | O => ([], st)
  | S n' =>
      let '(cmd, st') := draw_ticker width data st in
      let '(cmds, st'') := run_ticker width data n' st' in
      ((cmd ++ cmds)%list, st'')
  end.

(* ================================================================== *)
(** * The specification's vocabulary *)

(** ** Ticker items *)

Definition TickerItem : Type := (string * ColorRGB)%type.

(** The member [key] of [item] is a string or is missing. *)
Definition string_member (item : json) (key : string) : bool :=
  match item with
  | Jobject m =>
      match find key m with
      | Some (Jstring _) | None => true
      | Some _ => false
      end
  | _ => false
  end.

Definition field_or (item : json) (key default : string) : string :=
  match item with
  | Jobject m =>
      match find key m with Some (Jstring s) => s | _ => default end
  | _ => default
  end.

(** The Suspensions and the Delays of an OperationStatus document; a
    document that is absent has none. *)
Definition listed (op : json) (key : string) : list json :=
  if contains op key && is_array (at_key op key)
  then elements (at_key op key) else [].

Definition suspensions (op : json) : list json := listed op "suspend".
Definition delays (op : json) : list json := listed op "delay".

(** An item [{name, detail}] of the data model. *)
Definition item_typed (item : json) : bool :=
  string_member item "name" && string_member item "detail".

Definition operation_typed (op : json) : bool :=
  forallb item_typed (suspensions op) && forallb item_typed (delays op).

(** A WeatherReport record [{area, condition, office, report_time}]. *)
Definition weather_report (w : json) : bool :=
  string_member w "area_name" && string_member w "weather"
  && string_member w "publishing_office" && string_member w "report_time".

Definition board_absent (dep : json) : bool := is_null dep || empty dep.

Definition date_item (gmtoff t_now : Z) : TickerItem :=
  (date_buf (localtime gmtoff t_now), COL_WHITE).

Definition suspension_item (item : json) : TickerItem :=
  ("【運転見合わせ】 " ++ field_or item "name" "" ++ ": "
     ++ field_or item "detail" "詳細不明", COL_RED).

Definition delay_item (item : json) : TickerItem :=
  ("【遅延】 " ++ field_or item "name" "" ++ ": "
     ++ field_or item "detail" "詳細不明", COL_YELLOW).

Definition weather_item (w : json) : TickerItem :=
  ("【" ++ field_or w "publishing_office" " 気象庁" ++ " "
     ++ field_or w "report_time" " " ++ "発表】"
     ++ field_or w "area_name" "不明" ++ "の天気: "
     ++ field_or w "weather" "不明", COL_WHITE).

Definition error_item : TickerItem := (error_message, COL_RED).
Definition normal_item : TickerItem := (normal_message, COL_GREEN).

(** Steps 1 to 5 of the construction order of the Ticker Composer. *)
Definition ticker_items (gmtoff t_now : Z) (dep op w : json)
  : list TickerItem :=
  ([date_item gmtoff t_now]
     ++ map suspension_item (suspensions op)
     ++ map delay_item (delays op)
     ++ (if weather_report w then [weather_item w] else [])
     ++ (if board_absent dep then [error_item] else []))%list.

(** Step 6: the fallback, when the list would otherwise be empty. *)
Definition ticker_order (gmtoff t_now : Z) (dep op w : json)
  : list TickerItem :=
  let items := ticker_items gmtoff t_now dep op w in
  (items ++ match items with [] => [normal_item] | _ :: _ => [] end)%list.

(** Appending items to both vectors. *)
Definition push_items (items : list TickerItem) (d : DisplayData)
  : DisplayData :=
  mkData (departure d) (operation d) (weather d)
         (scroll_messages d ++ map fst items)
         (scroll_colors d ++ map snd items).

(** ** Urgency tiers *)

Inductive UrgencyTier : Type :=
| FIRST_TRAIN | LAST_TRAIN | CRITICAL | WARNING | NORMAL | UNKNOWN.

(** Step 5 of the Countdown Classifier. *)
Definition tier_of_minutes (minutes_until : Z) : UrgencyTier :=
  if 99 <? minutes_until then FIRST_TRAIN
  else if minutes_until <=? 17 then CRITICAL
  else if minutes_until <=? 20 then WARNING
  else NORMAL.

(** Steps 1, 2 and 5: the tier of an entry. *)
Definition entry_tier (gmtoff : Z) (status dep_time : string) (t_now : Z)
  : UrgencyTier :=
  if String.eqb status "始発" then FIRST_TRAIN
  else if String.eqb status "終電" then LAST_TRAIN
  else
    match sscanf_d_colon_d dep_time with
    | [dep_hour; dep_min] =>
        tier_of_minutes (diff_minutes gmtoff t_now dep_hour dep_min)
    | _ => UNKNOWN
    end.

(** The colour each tier is bound to. *)
Definition tier_color (t : UrgencyTier) : ColorRGB :=
  match t with
  | FIRST_TRAIN => COL_BLUE
  | LAST_TRAIN => COL_RED
  | CRITICAL => COL_RED
  | WARNING => COL_YELLOW
  | NORMAL => COL_GREEN
  | UNKNOWN => COL_GREEN
  end.

(** The countdown text of a tier. *)
Definition tier_text (t : UrgencyTier) (minutes_until : Z) : string :=
  match t with
  | FIRST_TRAIN => "始発"
  | LAST_TRAIN => "終電"
  | UNKNOWN => "--:--"
  | CRITICAL | WARNING | NORMAL => to_string minutes_until ++ "分後"
  end.

(** The substitute destination labels. *)
Definition run_for_it : string := "駅まで走れ".
Definition leave_now : string := "今すぐ出発".

(** The right-aligned text of a row of the primary layout (the third
    [DrawText] of the row). *)
Definition right_field (row : list DrawText) : DrawText :=
  nth 2 row (mkDrawText 0 0 COL_BLACK "").

(** The minutes of the specification: the floor of the quotient. *)
Definition floor_minutes (seconds : Z) : Z := seconds / 60 + 1.

(** HH:MM on the calendar day of [tm_now]. *)
Definition today_at (tm_now : tm) (dep_hour dep_min : Z) : tm :=
  mkTm 0 dep_min dep_hour (tm_mday tm_now) (tm_mon tm_now)
       (tm_year tm_now) (tm_wday tm_now).

(** The day-rollover condition of step 3. *)
Definition rollover (tm_now : tm) (dep_hour : Z) : Prop :=
  dep_hour < 3 /\ 3 <= tm_hour tm_now.

(** The texts of a run of the ticker that shows [msg] from the offset
    [from] for [n] frames, one pixel further left each frame. *)
Fixpoint scroll_trace (col : Color) (msg : string) (from : Z) (n : nat)
  : list DrawText :=
  match n with
  | O => []
  | S n' => mkDrawText from 31 col msg :: scroll_trace col msg (from - 1) n'
  end.

(** Sample inputs: 2026-10-30 08:00:00 Japanese time, a board with one
    entry. *)
Definition JST : Z := 32400.
Definition sample_time : Z := 1793314800.
Definition sample_board : json :=
  Jobject
    [("東京",
      Jobject
        [("departure_time", Jstring "08:15"); ("status", Jstring "");
         ("segments",
          Jarray [Jobject [("type", Jstring "快速");
                           ("destination", Jstring "東京")]])])].
Definition sample_operation : json :=
  Jobject
    [("suspend", Jarray [Jobject [("name", Jstring "中央線")]]);
     ("delay",
      Jarray [Jobject [("name", Jstring "山手線");
                       ("detail", Jstring "10分")]])].
Definition sample_weather : json :=
  Jobject [("area_name", Jstring "東京"); ("weather", Jstring "晴れ")].

(** [d'] is [d] with further items at the end of both vectors. *)
Definition grows (d d' : DisplayData) : Prop :=
  exists items : list TickerItem, d' = push_items items d.

(** A statement that only appends items, however it ends. *)
Definition appends {A : Type} (m : M A) : Prop :=
  forall d, grows d (snd (m d)).

(** The same documents with another departure board. *)
Definition with_departure (board : json) (d : DisplayData) : DisplayData :=
  mkData board (operation d) (weather d)
         (scroll_messages d) (scroll_colors d).

Definition sample_data : DisplayData :=
  mkData sample_board sample_operation sample_weather [] [].

(** A refresh that found the departure board only. *)
Definition quiet_data : DisplayData :=
  mkData sample_board Jnull Jnull [] [].

(** A refresh that found no departure board. *)
Definition blind_data : DisplayData :=
  mkData Jnull sample_operation sample_weather [] [].

(** The minutes an entry counts down, when its time parses. *)
Definition entry_minutes (gmtoff : Z) (dep_time : string) (t_now : Z) : Z :=
  match sscanf_d_colon_d dep_time with
  | [dep_hour; dep_min] => diff_minutes gmtoff t_now dep_hour dep_min
  | _ => 0
  end.

(** What the right-aligned field of the primary layout shows. *)
Definition shows_substitute (field : DrawText) (tier : UrgencyTier) : Prop :=
  (dt_text field = run_for_it \/ dt_text field = leave_now)
  /\ dt_color field = tier_color tier.

Definition shows_destination (field : DrawText) (destination : string)
  : Prop :=
  dt_text field = destination /\ dt_color field = COL_ORANGE.

(** A parser and a file system to run the loader on. *)
Definition sample_parse (bytes : string) : result json :=
  if String.eqb bytes "null" then Return Jnull
  else if String.eqb bytes "{}" then Return (Jobject [])
  else if String.eqb bytes "[]" then Return (Jarray [])
  else Throw (parse_error 101).

Definition sample_fs (path : string) : file :=
  if String.eqb path "information_json_files/departure.json"
  then Content "{}"
  else if String.eqb path "information_json_files/operation.json"
  then Content "{"
  else if String.eqb path "information_json_files/weather_forecast.json"
  then ReadFails
  else OpenFails.

(** A ticker of two items on a display three pixels wide. *)
Definition small_ticker : DisplayData :=
  mkData Jnull Jnull Jnull ["ab"; "c"] [COL_WHITE; COL_RED].

(* ================================================================== *)
(** ** The main loop: one iteration

    The clock readout, the two timers and the order of the drawing calls
    of one pass through [while (!interrupt_received)]. *)

Definition DEPARTURE_FILE : string := "information_json_files/departure.json".
Definition OPERATION_FILE : string := "information_json_files/operation.json".
Definition WEATHER_FILE : string :=
  "information_json_files/weather_forecast.json".

Definition TOGGLE_SECONDS : Z := 5.

(** [strftime] with "%H:%M" on odd seconds and "%H %M" on even ones
    ([%] of C++ is the remainder of the truncating division). *)
Definition current_time_str (tm_now_disp : tm) : string :=
  if negb (Z.rem (tm_sec tm_now_disp) 2 =? 0)
  then fmt_02d (tm_hour tm_now_disp) ++ ":" ++ fmt_02d (tm_min tm_now_disp)
  else fmt_02d (tm_hour tm_now_disp) ++ " " ++ fmt_02d (tm_min tm_now_disp).

(** [duration_cast<seconds>(later - earlier).count()] of two readings of
    the steady clock, which counts nanoseconds: the cast truncates. *)
Definition seconds_between (later earlier : Z) : Z :=
  Z.quot (later - earlier) 1000000000.

(** A call on the off-screen canvas. *)
Inductive DrawOp : Type :=
| Fill (red green blue : Z)
| Text (t : DrawText)
| Line (x0 y0 x1 y1 : Z) (color : Color).

(** The variables that live across iterations. *)
Record Loop : Type := mkLoop {
  current_data : DisplayData;
  show_alternate : bool;         (* show_alternate_display *)
  last_toggle_time : Z;
  last_load_time : Z;
  first_run : bool;
  cursor : Ticker                (* scroll_x, msg_index *)
}.

(** What one iteration reads from outside: the steady clock, the files,
    and the wall clock at each of its [std::time] calls. *)
Record FrameInput : Type := mkInput {
  steady_now : Z;
  files : string -> file;
  wall_rebuild : Z;
  wall_rows : nat -> Z;
  wall_disp : Z
}.

(** The layout switch: [(show_alternate_display, last_toggle_time)]. *)
Definition toggle_step (now : Z) (st : bool * Z) : bool * Z :=
  if TOGGLE_SECONDS <=? seconds_between now (snd st)
  then (negb (fst st), now)
  else st.

Definition reload_due (now : Z) (first_run : bool) (last_load_time : Z)
  : bool :=
  first_run || (2 <=? seconds_between now last_load_time).

Section MainLoop.

Variable parse : string -> result json.
Variable gmtoff : Z.
Variable width : Z.

(** Step 1, when it is due: the three loads and the rebuild. *)
Definition refresh (inp : FrameInput) (data : DisplayData)
  : result DisplayData :=
  rbind (load_json parse (files inp) DEPARTURE_FILE) (fun dep =>
  rbind (load_json parse (files inp) OPERATION_FILE) (fun op =>
  rbind (load_json parse (files inp) WEATHER_FILE) (fun w =>
  match update_scroll_messages gmtoff (wall_rebuild inp)
          (mkData dep op w (scroll_messages data) (scroll_colors data)) with
  | (Return _, data') => Return data'
  | (Throw e, _) => Throw e
  end))).

(** The lines that blank the clock region, and the two separators. *)
Definition clock_clear_lines : list DrawOp :=
  map (fun clear_y =>
         Line (width - 28 - 1) clear_y width clear_y (ToMatrixColor COL_BLACK))
      [22; 23; 24; 25; 26; 27; 28; 29; 30; 31].

Definition separators : list DrawOp :=
  [ Line 0 10 width 10 (ToMatrixColor COL_BLACK);
    Line 0 21 width 21 (ToMatrixColor COL_BLACK) ].

(** One iteration: the canvas calls in order and the variables left for
    the next one; an exception ends the program. *)
Definition frame (st : Loop) (inp : FrameInput) : result (list DrawOp * Loop) :=
  let now := steady_now inp in
  rbind
    (if reload_due now (first_run st) (last_load_time st)
     then rbind (refresh inp (current_data st))
                (fun data => Return (data, now, false))
     else Return (current_data st, last_load_time st, first_run st))
    (fun '(data, last_load, first) =>
  let '(show, last_toggle) :=
    toggle_step now (show_alternate st, last_toggle_time st) in
  rbind (draw_departures gmtoff width show (wall_rows inp) data) (fun rows =>
  let current_time_str :=
    current_time_str (localtime gmtoff (wall_disp inp)) in
  let '(tick, cursor') := draw_ticker width data (cursor st) in
  Return
    (([Fill 0 0 0] ++ map Text rows ++ map Text tick
        ++ clock_clear_lines
        ++ [Text (mkDrawText (width - 28) 31 (ToMatrixColor COL_WHITE)
                             current_time_str)]
        ++ separators)%list,
     mkLoop data show last_toggle last_load first cursor'))).

(** The variables at the first iteration, entered at steady time [t0]. *)
Definition initial_loop (t_static t0 : Z) : Loop :=
  mkLoop (mkData Jnull Jnull Jnull [] []) false t_static t0 true
         (mkTicker width 0).

End MainLoop.

(** The instants at which a run of iterations switches the layout, and
    those at which it reloads. *)
Fixpoint flips (st : bool * Z) (nows : list Z) : list Z :=
  match nows with
  | [] => []
  | now :: nows' =>
      if TOGGLE_SECONDS <=? seconds_between now (snd st)
      then now :: flips (toggle_step now st) nows'
      else flips (toggle_step now st) nows'
  end.

Fixpoint reloads (first_run : bool) (last_load_time : Z) (nows : list Z)
  : list Z :=
  match nows with
  | [] => []
  | now :: nows' =>
      if reload_due now first_run last_load_time
      then now :: reloads false now nows'
      else reloads first_run last_load_time nows'
  end.

(** Consecutive instants at least [gap] apart, the first one after
    [prev]. *)
Fixpoint spaced (gap prev : Z) (l : list Z) : Prop :=
  match l with
  | [] => True
  | a :: l' => prev + gap <= a /\ spaced gap a l'
  end.

(** The vectors of a ticker that can be drawn. *)
Definition in_step (d : DisplayData) : Prop :=
  List.length (scroll_messages d) = List.length (scroll_colors d)
  /\ scroll_messages d <> [].

(** A document the loader could not deliver. *)
Definition unavailable (parse : string -> result json) (f : file) : Prop :=
  match f with
  | Content bytes =>
      match parse bytes with Throw _ => True | Return _ => False end
  | _ => True
  end.

(** The frames one message takes and the texts of a pass over the
    messages [suf] that start at the index [i]. *)
Definition frames_of (width : Z) (msg : string) : nat :=
  S (Z.to_nat (width + 6 * Z.of_nat (String.length msg))).

Fixpoint pass_frames (width : Z) (suf : list string) : nat :=
  match suf with
  | [] => O
  | msg :: suf' => (frames_of width msg + pass_frames width suf')%nat
  end.

Fixpoint pass_trace (width : Z) (cols : list ColorRGB) (i : nat)
    (suf : list string) : list DrawText :=
  match suf with
  | [] => []
  | msg :: suf' =>
      (scroll_trace (ToMatrixColor (nth i cols COL_BLACK)) msg width
                    (frames_of width msg)
         ++ pass_trace width cols (S i) suf')%list
  end.

(** [p] on every integer from [z], [fuel] of them. *)
Fixpoint all_from (fuel : nat) (z : Z) (p : Z -> bool) : bool :=
  match fuel with
  | O => true
  | S fuel' => p z && all_from fuel' (z + 1) p
  end.

(** The day of the era [doe] is the day its own date gives back, with a
    month from 1 to 12 and a day from 1 to 31. *)
Definition era_day_ok (doe : Z) : bool :=
  let '(y, m, d) := civil_from_days (doe - 719468) in
  (days_from_civil y m d =? doe - 719468)
  && (1 <=? m) && (m <=? 12) && (1 <=? d) && (d <=? 31)
  && (0 <=? y) && (y <=? 400).

(** [key] occurs in [s]. *)
Definition occurs (key s : string) : Prop :=
  exists pre post, s = pre ++ key ++ post.

(** The guard of the loop body: a member that gets a row drawn. *)
Definition rendered (val : json) : bool :=
  negb (is_null val) && contains val "segments"
  && negb (empty (at_key val "segments")).

(** A member whose segments are an array and whose four strings can be
    read from its first segment and from itself. *)
Definition entry_typed (val : json) : bool :=
  match at_key val "segments" with
  | Jarray (seg :: _) =>
      string_member seg "type" && string_member val "departure_time"
      && string_member seg "destination" && string_member val "status"
  | _ => false
  end.

(** [val["segments"][0]] of a member that has one. *)
Definition first_seg (val : json) : json :=
  match at_key val "segments" with
  | Jarray (seg :: _) => seg
  | _ => Jnull
  end.

(** A refresh that found no departure board and an operation document
    whose suspension has a number for a name. *)
Definition ill_typed_data : DisplayData :=
  mkData Jnull
         (Jobject [("suspend", Jarray [Jobject [("name", Jnumber 5)]])])
         Jnull [] [].

(** The decimal digit [d] as a character, and the two digits of a number
    below 100. *)
Definition decimal_digit (d : Z) : ascii := ascii_of_nat (48 + Z.to_nat d).

Definition two_digits (v : Z) : string :=
  String (decimal_digit (v / 10)) (String (decimal_digit (v mod 10)) "").

(* ================================================================== *)
(** * Properties *)

(** ** The monad *)

Lemma bind_return {A B : Type} (m : M A) (k : A -> M B) d a d' :
  m d = (Return a, d') -> bind m k d = k a d'.
Proof. unfold bind. intros ->. reflexivity. Qed.

Lemma bind_throw {A B : Type} (m : M A) (k : A -> M B) d e d' :
  m d = (Throw e, d') -> bind m k d = (Throw e, d').
Proof. unfold bind. intros ->. reflexivity. Qed.

Lemma push_items_nil d : push_items [] d = d.
Proof.
  destruct d. unfold push_items. simpl. now rewrite !app_nil_r.
Qed.

Lemma push_items_app l1 l2 d :
  push_items l2 (push_items l1 d) = push_items (l1 ++ l2) d.
Proof.
  unfold push_items. simpl. now rewrite !map_app, !app_assoc.
Qed.

Lemma push_pair s c d :
  (push_back_message s ;;; push_back_color c)%stmt d
  = (Return tt, push_items [(s, c)] d).
Proof. reflexivity. Qed.

(** ** Reading typed members *)

Lemma value_typed item key default :
  string_member item key = true ->
  value item key default = Return (field_or item key default).
Proof.
  unfold string_member, value, field_or.
  destruct item as [| | | | |m]; try discriminate.
  destruct (find key m) as [[]|]; try discriminate; reflexivity.
Qed.

Lemma value_untyped item key default :
  string_member item key = false ->
  exists e, value item key default = Throw e.
Proof.
  unfold string_member, value.
  destruct item as [| | | | |m]; try (now eexists).
  destruct (find key m) as [[]|]; try discriminate; now eexists.
Qed.

(** ** Statements that only append *)

Lemma grows_refl d : grows d d.
Proof. exists []. now rewrite push_items_nil. Qed.

Lemma grows_trans d1 d2 d3 : grows d1 d2 -> grows d2 d3 -> grows d1 d3.
Proof.
  intros [l1 ->] [l2 ->]. exists (l1 ++ l2)%list. apply push_items_app.
Qed.

Lemma appends_ret {A : Type} (a : A) : appends (ret a).
Proof. intro d. apply grows_refl. Qed.

Lemma appends_lift {A : Type} (x : result A) : appends (lift x).
Proof. intro d. apply grows_refl. Qed.

Lemma appends_get {A : Type} (f : DisplayData -> A) : appends (get f).
Proof. intro d. apply grows_refl. Qed.

Lemma appends_bind {A B : Type} (m : M A) (k : A -> M B) :
  appends m -> (forall a, appends (k a)) -> appends (bind m k).
Proof.
  intros Hm Hk d. unfold bind. specialize (Hm d).
  destruct (m d) as [[a|e] d']; simpl in *.
  - eapply grows_trans; [exact Hm | apply Hk].
  - exact Hm.
Qed.

Lemma appends_push s c :
  appends (push_back_message s ;;; push_back_color c)%stmt.
Proof. intro d. rewrite push_pair. now exists [(s, c)]. Qed.

Lemma appends_when c (body : M unit) : appends body -> appends (when c body).
Proof. destruct c; simpl; [trivial | intros _; apply appends_ret]. Qed.

Lemma appends_try_catch_all (body : M unit) :
  appends body -> appends (try_catch_all body).
Proof.
  intros H d. unfold try_catch_all. specialize (H d).
  destruct (body d) as [[u|e] d']; exact H.
Qed.

Lemma appends_for_each l (body : json -> M unit) :
  (forall item, appends (body item)) -> appends (for_each l body).
Proof.
  intro H. induction l as [|item l IH]; simpl.
  - apply appends_ret.
  - apply appends_bind; [apply H | intros _; exact IH].
Qed.

Lemma appends_suspend_body item : appends (suspend_body item).
Proof.
  unfold suspend_body.
  apply appends_bind; [apply appends_lift | intro name].
  apply appends_bind; [apply appends_lift | intro detail].
  apply appends_push.
Qed.

Lemma appends_delay_body item : appends (delay_body item).
Proof.
  unfold delay_body.
  apply appends_bind; [apply appends_lift | intro name].
  apply appends_bind; [apply appends_lift | intro detail].
  apply appends_push.
Qed.

Lemma appends_weather_body w : appends (weather_body w).
Proof.
  unfold weather_body.
  do 4 (apply appends_bind; [apply appends_lift | intro]).
  apply appends_push.
Qed.

Lemma appends_operation_block : appends operation_block.
Proof.
  unfold operation_block.
  apply appends_bind; [apply appends_get | intro op].
  apply appends_when, appends_bind.
  - apply appends_when, appends_for_each, appends_suspend_body.
  - intros _. apply appends_when, appends_for_each, appends_delay_body.
Qed.

Lemma appends_weather_block : appends weather_block.
Proof.
  unfold weather_block.
  apply appends_bind; [apply appends_get | intro w].
  apply appends_when, appends_try_catch_all, appends_weather_body.
Qed.

Lemma appends_error_block : appends error_block.
Proof.
  unfold error_block.
  apply appends_bind; [apply appends_get | intro dep].
  apply appends_when, appends_push.
Qed.

Lemma appends_normal_block : appends normal_block.
Proof.
  unfold normal_block.
  apply appends_bind; [apply appends_get | intro msgs].
  apply appends_when, appends_push.
Qed.

(** Whatever the documents hold and however the rebuild ends, the two
    vectors are the date item followed by further items, pair by pair. *)
Lemma update_scroll_messages_shape gmtoff t_now d :
  exists items : list TickerItem,
    snd (update_scroll_messages gmtoff t_now d)
    = mkData (departure d) (operation d) (weather d)
             (map fst (date_item gmtoff t_now :: items))
             (map snd (date_item gmtoff t_now :: items)).
Proof.
  assert (H : appends (operation_block ;;; weather_block ;;; error_block ;;;
                       normal_block)%stmt).
  { apply appends_bind; [apply appends_operation_block | intros _].
    apply appends_bind; [apply appends_weather_block | intros _].
    apply appends_bind; [apply appends_error_block | intros _].
    apply appends_normal_block. }
  unfold update_scroll_messages, date_block.
  set (rest := (operation_block ;;; _)%stmt) in *. clearbody rest.
  specialize (H (push_items [date_item gmtoff t_now]
                   (mkData (departure d) (operation d) (weather d) [] []))).
  destruct H as [items H]. exists items.
  unfold bind, clear_messages, clear_colors, push_back_message,
    push_back_color. simpl.
  unfold push_items, date_item in H. simpl in H. exact H.
Qed.

(** ** The rebuild on typed documents *)

Section TypedLoop.

Variable body : json -> M unit.
Variable item_of : json -> TickerItem.
Hypothesis body_typed :
  forall item d, item_typed item = true ->
                 body item d = (Return tt, push_items [item_of item] d).

Lemma for_each_typed l d :
  forallb item_typed l = true ->
  for_each l body d = (Return tt, push_items (map item_of l) d).
Proof.
  revert d. induction l as [|item l IH]; intros d Hl; simpl in *.
  - unfold ret. now rewrite push_items_nil.
  - apply andb_prop in Hl. destruct Hl as [Hitem Hl].
    erewrite bind_return by (apply body_typed; exact Hitem).
    rewrite IH by exact Hl. now rewrite push_items_app.
Qed.

End TypedLoop.

Lemma suspend_body_typed item d :
  item_typed item = true ->
  suspend_body item d = (Return tt, push_items [suspension_item item] d).
Proof.
  unfold item_typed. intro H. apply andb_prop in H. destruct H as [Hn Hd].
  unfold suspend_body, bind, lift.
  rewrite (value_typed _ _ _ Hn), (value_typed _ _ _ Hd). reflexivity.
Qed.

Lemma delay_body_typed item d :
  item_typed item = true ->
  delay_body item d = (Return tt, push_items [delay_item item] d).
Proof.
  unfold item_typed. intro H. apply andb_prop in H. destruct H as [Hn Hd].
  unfold delay_body, bind, lift.
  rewrite (value_typed _ _ _ Hn), (value_typed _ _ _ Hd). reflexivity.
Qed.

Lemma listed_null key : listed Jnull key = [].
Proof. reflexivity. Qed.

Lemma when_listed op key (body : json -> M unit) d :
  when (contains op key && is_array (at_key op key))
       (for_each (elements (at_key op key)) body) d
  = for_each (listed op key) body d.
Proof.
  unfold listed. now destruct (contains op key && is_array (at_key op key)).
Qed.

Lemma operation_block_typed d :
  operation_typed (operation d) = true ->
  operation_block d
  = (Return tt,
     push_items (map suspension_item (suspensions (operation d))
                   ++ map delay_item (delays (operation d))) d).
Proof.
  unfold operation_typed, suspensions, delays. intro H.
  apply andb_prop in H. destruct H as [Hs Hd].
  unfold operation_block, bind at 1, get.
  destruct (is_null (operation d)) eqn:Hnull; simpl.
  - destruct (operation d); try discriminate.
    rewrite !listed_null. simpl. unfold ret. now rewrite push_items_nil.
  - erewrite bind_return.
    2:{ rewrite when_listed.
        apply (for_each_typed _ _ suspend_body_typed). exact Hs. }
    rewrite when_listed.
    rewrite (for_each_typed _ _ delay_body_typed) by exact Hd.
    now rewrite push_items_app.
Qed.

Lemma weather_block_items d :
  weather_block d
  = (Return tt,
     push_items (if weather_report (weather d) then [weather_item (weather d)]
                 else []) d).
Proof.
  unfold weather_block, bind at 1, get. set (w := weather d).
  destruct (is_null w) eqn:Hnull; simpl.
  - destruct w; try discriminate. simpl. unfold ret.
    now rewrite push_items_nil.
  - unfold weather_report, try_catch_all, weather_body, bind, lift.
    destruct (string_member w "area_name") eqn:H1;
      [rewrite (value_typed _ _ _ H1)
      | destruct (value_untyped _ _ "不明" H1) as [e ->]; simpl;
        now rewrite push_items_nil].
    destruct (string_member w "weather") eqn:H2;
      [rewrite (value_typed _ _ _ H2)
      | destruct (value_untyped _ _ "不明" H2) as [e ->]; simpl;
        now rewrite push_items_nil].
    destruct (string_member w "publishing_office") eqn:H3;
      [rewrite (value_typed _ _ _ H3)
      | destruct (value_untyped _ _ " 気象庁" H3) as [e ->]; simpl;
        now rewrite push_items_nil].
    destruct (string_member w "report_time") eqn:H4;
      [rewrite (value_typed _ _ _ H4)
      | destruct (value_untyped _ _ " " H4) as [e ->]; simpl;
        now rewrite push_items_nil].
    reflexivity.
Qed.

Lemma error_block_items d :
  error_block d
  = (Return tt,
     push_items (if board_absent (departure d) then [error_item] else []) d).
Proof.
  unfold error_block, bind at 1, get, board_absent.
  destruct (is_null (departure d) || empty (departure d)); simpl.
  - reflexivity.
  - unfold ret. now rewrite push_items_nil.
Qed.

Lemma normal_block_items d :
  normal_block d
  = (Return tt,
     push_items (match scroll_messages d with
                 | [] => [normal_item]
                 | _ :: _ => []
                 end) d).
Proof.
  unfold normal_block, bind at 1, get.
  destruct (scroll_messages d); simpl.
  - reflexivity.
  - unfold ret. now rewrite push_items_nil.
Qed.

(** The rebuild of typed documents ends normally, with the items of the
    construction order in both vectors. *)
Lemma update_scroll_messages_typed gmtoff t_now d :
  operation_typed (operation d) = true ->
  update_scroll_messages gmtoff t_now d
  = (Return tt,
     let items :=
       ticker_order gmtoff t_now (departure d) (operation d) (weather d) in
     mkData (departure d) (operation d) (weather d)
            (map fst items) (map snd items)).
Proof.
  intro Hop. unfold update_scroll_messages, date_block.
  set (d0 := mkData (departure d) (operation d) (weather d) [] []).
  assert (H0 : (clear_messages ;;; clear_colors)%stmt d = (Return tt, d0))
    by reflexivity.
  unfold bind at 1 2.
  change (clear_messages d) with
    (Return tt, mkData (departure d) (operation d) (weather d) []
                       (scroll_colors d)).
  cbv beta iota. change (clear_colors _) with (Return tt, d0).
  cbv beta iota. clear H0.
  erewrite bind_return by apply push_pair.
  set (d1 := push_items _ d0).
  erewrite bind_return by (apply operation_block_typed; exact Hop).
  set (d2 := push_items _ d1).
  erewrite bind_return by apply weather_block_items.
  set (d3 := push_items _ d2).
  erewrite bind_return by apply error_block_items.
  rewrite normal_block_items.
  subst d3 d2 d1 d0. rewrite !push_items_app.
  unfold ticker_order, ticker_items, date_item, push_items. simpl.
  rewrite !app_assoc. reflexivity.
Qed.

(** ** The rebuild on ill-typed items

    The loops over the suspensions and the delays have no handler: an
    item that is not an object, or whose name or detail is not a string,
    ends the rebuild by the exception of [value]. *)

Lemma suspend_body_untyped item d :
  item_typed item = false -> exists e, suspend_body item d = (Throw e, d).
Proof.
  unfold item_typed, suspend_body, bind, lift. intro H.
  destruct (string_member item "name") eqn:Hn.
  - destruct (value_untyped item "detail" "詳細不明" H) as [e He].
    rewrite (value_typed _ _ _ Hn), He. now exists e.
  - destruct (value_untyped item "name" "" Hn) as [e He].
    rewrite He. now exists e.
Qed.

Lemma delay_body_untyped item d :
  item_typed item = false -> exists e, delay_body item d = (Throw e, d).
Proof.
  unfold item_typed, delay_body, bind, lift. intro H.
  destruct (string_member item "name") eqn:Hn.
  - destruct (value_untyped item "detail" "詳細不明" H) as [e He].
    rewrite (value_typed _ _ _ Hn), He. now exists e.
  - destruct (value_untyped item "name" "" Hn) as [e He].
    rewrite He. now exists e.
Qed.

Section UntypedLoop.

Variable body : json -> M unit.
Variable item_of : json -> TickerItem.
Hypothesis body_typed :
  forall item d, item_typed item = true ->
                 body item d = (Return tt, push_items [item_of item] d).
Hypothesis body_untyped :
  forall item d, item_typed item = false ->
                 exists e, body item d = (Throw e, d).

Lemma for_each_untyped l : forall d,
  forallb item_typed l = false ->
  exists e d', for_each l body d = (Throw e, d').
Proof.
  induction l as [|item l IH]; intros d Hl; simpl in *; [discriminate|].
  destruct (item_typed item) eqn:Hitem; simpl in Hl.
  - erewrite bind_return by (apply body_typed; exact Hitem).
    apply IH. exact Hl.
  - destruct (body_untyped item d Hitem) as [e He].
    erewrite bind_throw by exact He. now exists e, d.
Qed.

End UntypedLoop.

Lemma operation_block_untyped d :
  operation_typed (operation d) = false ->
  exists e d', operation_block d = (Throw e, d').
Proof.
  unfold operation_typed, suspensions, delays. intro H.
  unfold operation_block, bind at 1, get.
  destruct (is_null (operation d)) eqn:Hnull.
  - destruct (operation d); discriminate.
  - cbn [negb when].
    destruct (forallb item_typed (listed (operation d) "suspend")) eqn:Hs;
      simpl in H.
    + erewrite bind_return
        by (rewrite when_listed;
            apply (for_each_typed _ _ suspend_body_typed); exact Hs).
      rewrite when_listed.
      apply (for_each_untyped _ _ delay_body_typed delay_body_untyped).
      exact H.
    + destruct (for_each_untyped _ _ suspend_body_typed suspend_body_untyped
                  _ d Hs) as (e & d' & He).
      erewrite bind_throw by (rewrite when_listed; exact He).
      now exists e, d'.
Qed.

Lemma update_scroll_messages_untyped gmtoff t_now d :
  operation_typed (operation d) = false ->
  exists e d', update_scroll_messages gmtoff t_now d = (Throw e, d').
Proof.
  intro Hop. unfold update_scroll_messages, date_block.
  unfold bind at 1 2.
  change (clear_messages d) with
    (Return tt, mkData (departure d) (operation d) (weather d) []
                       (scroll_colors d)).
  cbv beta iota.
  change (clear_colors _) with
    (Return tt, mkData (departure d) (operation d) (weather d) [] []).
  cbv beta iota.
  erewrite bind_return by apply push_pair.
  match goal with
  | |- context [bind operation_block _ ?d1] =>
      destruct (operation_block_untyped d1 Hop) as (e & d' & He)
  end.
  erewrite bind_throw by exact He. now exists e, d'.
Qed.

Lemma combine_map_fst_snd {A B : Type} (l : list (A * B)) :
  combine (map fst l) (map snd l) = l.
Proof.
  induction l as [|[a c] l IH]; simpl; [reflexivity | now rewrite IH].
Qed.

(* ================================================================== *)
(** ** Ticker Composer *)



(** C8, as the source has it: when the departure board is null or empty
    and every suspension and delay of the operation document is an object
    whose name and detail are strings or missing, the rebuilt ticker
    holds the error item, in red, whatever the weather document holds and
    whatever suspensions and delays are listed; the list is the one a
    present board would give, with the error item added at its end, so
    no other item is removed. *)
Theorem error_item_when_board_absent gmtoff t_now d :
  operation_typed (operation d) = true ->
  board_absent (departure d) = true ->
  exists d',
    update_scroll_messages gmtoff t_now d = (Return tt, d')
    /\ In error_item (combine (scroll_messages d') (scroll_colors d'))
    /\ forall board,
         board_absent board = false ->
         exists d'',
           update_scroll_messages gmtoff t_now (with_departure board d)
           = (Return tt, d'')
           /\ scroll_messages d' = (scroll_messages d'' ++ [error_message])%list
           /\ scroll_colors d' = (scroll_colors d'' ++ [COL_RED])%list.
Proof.
  intros Hop Habs.
  eexists. split; [apply update_scroll_messages_typed; exact Hop|].
  cbv zeta. cbn [scroll_messages scroll_colors]. split.
  - rewrite combine_map_fst_snd.
    unfold ticker_order, ticker_items. rewrite Habs.
    apply in_or_app. left. rewrite !app_assoc. apply in_or_app. right.
    now left.
  - unfold ticker_order, ticker_items. rewrite Habs. simpl.
    intros board Hboard. eexists.
    split; [apply update_scroll_messages_typed; exact Hop|].
    cbv zeta. unfold ticker_order, ticker_items. simpl. rewrite Hboard.
    cbn [scroll_messages scroll_colors map].
    rewrite !app_nil_r, !map_app. simpl. rewrite <- !app_assoc.
    split; reflexivity.
Qed.

Lemma error_item_when_board_absent_witness :
  operation_typed (operation blind_data) = true
  /\ board_absent (departure blind_data) = true
  /\ exists d',
       update_scroll_messages JST sample_time blind_data = (Return tt, d')
       /\ In error_item (combine (scroll_messages d') (scroll_colors d')).
Proof.
  split; [reflexivity|]. split; [reflexivity|].
  destruct (error_item_when_board_absent JST sample_time blind_data) as
    [d' [Hrun [Hin _]]]; [reflexivity | reflexivity |].
  exists d'. split; [exact Hrun | exact Hin].
Defined.

(** C8, as stated, fails: with no departure board and an operation
    document whose suspension has the number 5 for a name, the read of
    the name throws type_error 302 out of the rebuild, before the error
    item is pushed: the vectors hold the date item only. *)
Lemma error_item_missing_on_ill_typed_item :
  board_absent (departure ill_typed_data) = true
  /\ update_scroll_messages JST sample_time ill_typed_data
     = (Throw (type_error 302),
        mkData (departure ill_typed_data) (operation ill_typed_data)
               (weather ill_typed_data)
               ["本日は 10月30日（金）です"] [COL_WHITE])
  /\ ~ In error_item
         (combine
            (scroll_messages
               (snd (update_scroll_messages JST sample_time ill_typed_data)))
            (scroll_colors
               (snd (update_scroll_messages JST sample_time ill_typed_data)))).
Proof.
  split; [reflexivity|]. split; [vm_compute; reflexivity|].
  vm_compute. intros [H|[]]. discriminate H.
Qed.

(** C2, as the source has it: with no suspension, no delay, no weather
    report and a departure board that is present, the rebuilt ticker
    starts with the date item in white and holds no suspension, delay,
    weather or error item; nothing but the "normal operation" item in
    green can follow the date item. *)
Theorem quiet_board_ticker gmtoff t_now d :
  suspensions (operation d) = [] ->
  delays (operation d) = [] ->
  weather d = Jnull ->
  board_absent (departure d) = false ->
  exists d' rest,
    update_scroll_messages gmtoff t_now d = (Return tt, d')
    /\ scroll_messages d' = map fst (date_item gmtoff t_now :: rest)
    /\ scroll_colors d' = map snd (date_item gmtoff t_now :: rest)
    /\ (rest = [] \/ rest = [normal_item]).
Proof.
  intros Hs Hd Hw Hb.
  assert (Hop : operation_typed (operation d) = true).
  { unfold operation_typed. now rewrite Hs, Hd. }
  eexists. exists []. split.
  - apply update_scroll_messages_typed. exact Hop.
  - cbv zeta. unfold ticker_order, ticker_items.
    rewrite Hs, Hd, Hw, Hb. simpl. auto.
Qed.

Lemma quiet_board_ticker_witness :
  exists d' rest,
    update_scroll_messages JST sample_time quiet_data = (Return tt, d')
    /\ scroll_messages d' = map fst (date_item JST sample_time :: rest)
    /\ scroll_colors d' = map snd (date_item JST sample_time :: rest)
    /\ (rest = [] \/ rest = [normal_item]).
Proof.
  apply (quiet_board_ticker JST sample_time quiet_data); reflexivity.
Defined.

(** C2, as stated, fails: a refresh that finds the departure board and
    nothing else leaves the date item, not the "normal operation" item. *)
Lemma quiet_board_not_normal_operation :
  suspensions (operation quiet_data) = []
  /\ delays (operation quiet_data) = []
  /\ weather quiet_data = Jnull
  /\ board_absent (departure quiet_data) = false
  /\ scroll_messages (snd (update_scroll_messages JST sample_time quiet_data))
     = ["本日は 10月30日（金）です"]
  /\ scroll_messages (snd (update_scroll_messages JST sample_time quiet_data))
     <> [normal_message].
Proof.
  repeat split; try reflexivity.
  vm_compute. discriminate.
Qed.

(** C10: after every rebuild, however it ends, the two vectors have the
    same length and the message vector is not empty, so the index the
    frame checks against the message vector is inside the colour vector
    as well. *)
Theorem scroll_vectors_in_step gmtoff t_now d :
  let d' := snd (update_scroll_messages gmtoff t_now d) in
  List.length (scroll_messages d') = List.length (scroll_colors d')
  /\ scroll_messages d' <> []
  /\ forall msg_index : nat,
       (checked_index (scroll_messages d') msg_index
        < List.length (scroll_colors d'))%nat
       /\ exists c,
            nth_error (scroll_colors d')
                      (checked_index (scroll_messages d') msg_index) = Some c.
Proof.
  destruct (update_scroll_messages_shape gmtoff t_now d) as [items H].
  cbv zeta. rewrite H. cbn [scroll_messages scroll_colors].
  assert (Hlen : List.length (map fst (date_item gmtoff t_now :: items))
                 = List.length (map snd (date_item gmtoff t_now :: items)))
    by now rewrite !length_map.
  split; [exact Hlen|]. split; [discriminate|].
  intro msg_index.
  assert (Hlt : (checked_index (map fst (date_item gmtoff t_now :: items))
                               msg_index
                 < List.length (map snd (date_item gmtoff t_now :: items)))%nat).
  { unfold checked_index. rewrite <- Hlen.
    destruct (Nat.leb_spec
                (List.length (map fst (date_item gmtoff t_now :: items)))
                msg_index) as [Hle|Hgt].
    - simpl. lia.
    - exact Hgt. }
  split; [exact Hlt|].
  destruct (nth_error (map snd (date_item gmtoff t_now :: items))
                      (checked_index (map fst (date_item gmtoff t_now :: items))
                                     msg_index)) eqn:E.
  - now eexists.
  - apply nth_error_None in E. lia.
Qed.

(* ================================================================== *)
(** ** DataSnapshot Loader *)

(** C9: [load_json] always returns: the null document when the file
    cannot be opened, when it cannot be read and when its content does
    not parse, and the parsed document otherwise. *)
Theorem load_json_never_throws parse fs path :
  (exists j, load_json parse fs path = Return j)
  /\ (fs path = OpenFails -> load_json parse fs path = Return Jnull)
  /\ (fs path = ReadFails -> load_json parse fs path = Return Jnull)
  /\ (forall bytes e,
        fs path = Content bytes -> parse bytes = Throw e ->
        load_json parse fs path = Return Jnull)
  /\ (forall bytes j,
        fs path = Content bytes -> parse bytes = Return j ->
        load_json parse fs path = Return j).
Proof.
  unfold load_json, extract. repeat split.
  - destruct (fs path) as [| |bytes]; simpl; try (now eexists).
    destruct (parse bytes); now eexists.
  - now intros ->.
  - now intros ->.
  - intros bytes e -> H. simpl. now rewrite H.
  - intros bytes j -> H. simpl. now rewrite H.
Qed.

Lemma load_json_never_throws_witness :
  load_json sample_parse sample_fs "information_json_files/departure.json"
  = Return (Jobject [])
  /\ load_json sample_parse sample_fs "information_json_files/operation.json"
     = Return Jnull
  /\ load_json sample_parse sample_fs
               "information_json_files/weather_forecast.json"
     = Return Jnull
  /\ load_json sample_parse sample_fs "nowhere.json" = Return Jnull.
Proof.
  split; [|split; [|split]].
  - destruct (load_json_never_throws sample_parse sample_fs
                "information_json_files/departure.json")
      as (_ & _ & _ & _ & Hparsed).
    apply (Hparsed "{}"); reflexivity.
  - destruct (load_json_never_throws sample_parse sample_fs
                "information_json_files/operation.json")
      as (_ & _ & _ & Hmalformed & _).
    apply (Hmalformed "{" (parse_error 101)); reflexivity.
  - destruct (load_json_never_throws sample_parse sample_fs
                "information_json_files/weather_forecast.json")
      as (_ & _ & Hunreadable & _).
    apply Hunreadable; reflexivity.
  - destruct (load_json_never_throws sample_parse sample_fs "nowhere.json")
      as (_ & Hmissing & _).
    apply Hmissing; reflexivity.
Defined.

(* ================================================================== *)
(** ** Countdown Classifier *)

Lemma ToMatrixColor_id c : ToMatrixColor c = c.
Proof. now destruct c. Qed.

(** The text and the colour the source computes are those of the tier
    of the entry. *)
Lemma countdown_refines gmtoff status dep_time t_now :
  countdown gmtoff status dep_time t_now
  = (tier_text (entry_tier gmtoff status dep_time t_now)
               (entry_minutes gmtoff dep_time t_now),
     tier_color (entry_tier gmtoff status dep_time t_now)).
Proof.
  unfold countdown, entry_tier, entry_minutes, tier_of_minutes.
  rewrite !ToMatrixColor_id.
  destruct (String.eqb status "始発"); [reflexivity|].
  destruct (String.eqb status "終電"); [reflexivity|].
  destruct (sscanf_d_colon_d dep_time) as [|h [|m [|x l]]];
    [reflexivity | reflexivity | | reflexivity].
  generalize (diff_minutes gmtoff t_now h m). intro n.
  destruct (99 <? n); [reflexivity|].
  destruct (n <=? 17); [reflexivity|].
  destruct (n <=? 20); reflexivity.
Qed.

Lemma tier_of_minutes_spec n :
  (99 < n -> tier_of_minutes n = FIRST_TRAIN)
  /\ (n <= 17 -> tier_of_minutes n = CRITICAL)
  /\ (18 <= n <= 20 -> tier_of_minutes n = WARNING)
  /\ (21 <= n <= 99 -> tier_of_minutes n = NORMAL).
Proof.
  unfold tier_of_minutes.
  destruct (Z.ltb_spec 99 n), (Z.leb_spec n 17), (Z.leb_spec n 20);
    repeat split; intros; try reflexivity; lia.
Qed.

(** C4: for a departure whose time parses and whose status is neither
    "first train" nor "last train", the text and the colour shown are
    those of the tier of [minutes_until]: FIRST_TRAIN above 99, CRITICAL
    up to 17, WARNING from 18 to 20, NORMAL from 21 to 99. *)
Theorem tier_thresholds gmtoff status dep_time t_now dep_hour dep_min :
  status <> "始発" ->
  status <> "終電" ->
  sscanf_d_colon_d dep_time = [dep_hour; dep_min] ->
  let minutes_until := diff_minutes gmtoff t_now dep_hour dep_min in
  let tier := tier_of_minutes minutes_until in
  countdown gmtoff status dep_time t_now
  = (tier_text tier minutes_until, tier_color tier)
  /\ entry_tier gmtoff status dep_time t_now = tier
  /\ (99 < minutes_until -> tier = FIRST_TRAIN)
  /\ (minutes_until <= 17 -> tier = CRITICAL)
  /\ (18 <= minutes_until <= 20 -> tier = WARNING)
  /\ (21 <= minutes_until <= 99 -> tier = NORMAL)
  /\ tier_of_minutes 17 = CRITICAL /\ tier_of_minutes 18 = WARNING
  /\ tier_of_minutes 20 = WARNING /\ tier_of_minutes 21 = NORMAL
  /\ tier_of_minutes 99 = NORMAL /\ tier_of_minutes 100 = FIRST_TRAIN.
Proof.
  intros Hfirst Hlast Hscan minutes_until tier.
  assert (Htier : entry_tier gmtoff status dep_time t_now = tier).
  { unfold entry_tier.
    apply String.eqb_neq in Hfirst. apply String.eqb_neq in Hlast.
    now rewrite Hfirst, Hlast, Hscan. }
  split.
  - rewrite countdown_refines, Htier. unfold entry_minutes.
    now rewrite Hscan.
  - split; [exact Htier|].
    destruct (tier_of_minutes_spec minutes_until) as (H1 & H2 & H3 & H4).
    repeat split; assumption || reflexivity.
Qed.

Lemma tier_thresholds_witness :
  countdown JST "" "08:15" sample_time = ("16分後", COL_RED)
  /\ entry_tier JST "" "08:15" sample_time = CRITICAL.
Proof.
  destruct (tier_thresholds JST "" "08:15" sample_time 8 15) as (Hc & Ht & _);
    [discriminate | discriminate | reflexivity |].
  split; [rewrite Hc | rewrite Ht]; vm_compute; reflexivity.
Defined.

(** C5: the candidate departure instant of a parsed HH:MM time, from
    which the countdown of the entry is taken, is that time on the
    current calendar day, moved to the next calendar day if and only if
    the parsed hour is below 3 and the current hour is at least 3. *)
Theorem day_rollover gmtoff dep_time t_now dep_hour dep_min :
  sscanf_d_colon_d dep_time = [dep_hour; dep_min] ->
  let tm_now := localtime gmtoff t_now in
  let tm_dep := candidate tm_now dep_hour dep_min in
  (tm_mday tm_dep = tm_mday tm_now + 1 <-> rollover tm_now dep_hour)
  /\ (~ rollover tm_now dep_hour -> tm_dep = today_at tm_now dep_hour dep_min)
  /\ (rollover tm_now dep_hour ->
      mktime gmtoff tm_dep
      = mktime gmtoff (today_at tm_now dep_hour dep_min) + 86400)
  /\ (~ rollover tm_now dep_hour ->
      mktime gmtoff tm_dep = mktime gmtoff (today_at tm_now dep_hour dep_min))
  /\ tm_mon tm_dep = tm_mon tm_now
  /\ tm_year tm_dep = tm_year tm_now
  /\ tm_hour tm_dep = dep_hour /\ tm_min tm_dep = dep_min
  /\ tm_sec tm_dep = 0
  /\ entry_minutes gmtoff dep_time t_now
     = Z.quot (mktime gmtoff tm_dep - t_now) 60 + 1.
Proof.
  intros Hscan tm_now tm_dep.
  assert (Hmin : entry_minutes gmtoff dep_time t_now
                 = Z.quot (mktime gmtoff tm_dep - t_now) 60 + 1).
  { unfold entry_minutes. now rewrite Hscan. }
  revert Hmin. generalize (entry_minutes gmtoff dep_time t_now).
  intros minutes Hmin. subst tm_dep.
  generalize dependent tm_now. intro tm_now.
  generalize (Z.quot (mktime gmtoff (candidate tm_now dep_hour dep_min)
                      - t_now) 60 + 1).
  intros q Hmin.
  unfold candidate, rollover, today_at.
  destruct (Z.ltb_spec dep_hour 3) as [Hh|Hh];
    destruct (Z.leb_spec 3 (tm_hour tm_now)) as [Hn|Hn];
    cbn [andb tm_sec tm_min tm_hour tm_mday tm_mon tm_year tm_wday].
  all: unfold mktime;
    cbn [tm_sec tm_min tm_hour tm_mday tm_mon tm_year tm_wday].
  all: generalize (days_from_civil (tm_year tm_now + 1900 + tm_mon tm_now / 12)
                  (tm_mon tm_now mod 12 + 1) 1); intro day0.
  all: repeat split; intros; try reflexivity; try lia.
Qed.

Lemma day_rollover_witness :
  sscanf_d_colon_d "02:59" = [2; 59]
  /\ tm_mday (candidate (localtime JST sample_time) 2 59) = 31
  /\ tm_mday (localtime JST sample_time) = 30.
Proof.
  split; [vm_compute; reflexivity|].
  destruct (day_rollover JST "02:59" sample_time 2 59) as ([_ Hroll] & _);
    [vm_compute; reflexivity|].
  split; [|vm_compute; reflexivity].
  rewrite Hroll; [vm_compute; reflexivity | split; vm_compute; congruence].
Defined.

(** The rule at its boundary: a 02:59 departure seen at 03:00:00 is
    tomorrow's, seen at 02:59:59 it is today's, and a 03:00 departure is
    never moved. *)
Example rollover_boundary :
  let at_0300 := sample_time - 5 * 3600 in
  tm_hour (localtime JST at_0300) = 3
  /\ tm_hour (localtime JST (at_0300 - 1)) = 2
  /\ diff_seconds JST at_0300 2 59 = 86400 - 60
  /\ diff_seconds JST (at_0300 - 1) 2 59 = -59
  /\ diff_seconds JST at_0300 3 0 = 0
  /\ diff_seconds JST (at_0300 + 60) 3 0 = -60.
Proof. vm_compute. repeat split; reflexivity. Qed.

Lemma quot_floor s :
  (0 <= s -> Z.quot s 60 = s / 60)
  /\ (s < 0 -> Z.quot s 60 = s / 60 + (if s mod 60 =? 0 then 0 else 1)).
Proof.
  split; intro Hs.
  - apply Z.quot_div_nonneg; lia.
  - pose proof (Z.quot_rem' s 60) as Hq.
    pose proof (Z.rem_bound_pos_neg s 60) as Hr.
    pose proof (Z.div_mod s 60) as Hd.
    pose proof (Z.mod_pos_bound s 60) as Hm.
    destruct (Z.eqb_spec (s mod 60) 0); lia.
Qed.

(** C6, as the source has it: [minutes_until] is the quotient of the
    seconds to the candidate instant by 60, rounded toward zero, plus one.
    For a candidate that is not in the past this is the floor plus one;
    for one in the past it is the floor plus one when the distance is a
    whole number of minutes, and one more otherwise.  A departure 30
    seconds ahead reads "1分後". *)
Theorem minutes_until_rounds_toward_zero gmtoff dep_time t_now
    dep_hour dep_min :
  sscanf_d_colon_d dep_time = [dep_hour; dep_min] ->
  let seconds := diff_seconds gmtoff t_now dep_hour dep_min in
  let minutes_until := diff_minutes gmtoff t_now dep_hour dep_min in
  entry_minutes gmtoff dep_time t_now = minutes_until
  /\ minutes_until = Z.quot seconds 60 + 1
  /\ (0 <= seconds -> minutes_until = floor_minutes seconds)
  /\ (seconds < 0 ->
      minutes_until
      = floor_minutes seconds + (if seconds mod 60 =? 0 then 0 else 1))
  /\ (seconds = 30 ->
      minutes_until = 1
      /\ fst (countdown gmtoff "" dep_time t_now) = "1分後").
Proof.
  intros Hscan seconds minutes_until.
  assert (Hm : minutes_until = Z.quot seconds 60 + 1) by reflexivity.
  destruct (quot_floor seconds) as [Hpos Hneg].
  split; [unfold entry_minutes; now rewrite Hscan|].
  split; [exact Hm|]. unfold floor_minutes.
  split; [intro H; rewrite Hm, Hpos by exact H; reflexivity|].
  split; [intro H; rewrite Hm, Hneg by exact H; lia|].
  intro H30.
  assert (H1 : minutes_until = 1) by (rewrite Hm, H30; reflexivity).
  split; [exact H1|].
  rewrite countdown_refines. unfold entry_tier, entry_minutes.
  rewrite Hscan. cbn [String.eqb Ascii.eqb Bool.eqb fst].
  fold minutes_until. rewrite H1. reflexivity.
Qed.

Lemma minutes_until_rounds_toward_zero_witness :
  sscanf_d_colon_d "08:15" = [8; 15]
  /\ diff_seconds JST (sample_time + 870) 8 15 = 30
  /\ diff_minutes JST (sample_time + 870) 8 15 = 1
  /\ fst (countdown JST "" "08:15" (sample_time + 870)) = "1分後".
Proof.
  split; [vm_compute; reflexivity|].
  split; [vm_compute; reflexivity|].
  destruct (minutes_until_rounds_toward_zero
              JST "08:15" (sample_time + 870) 8 15) as (_ & _ & _ & _ & H30);
    [vm_compute; reflexivity|].
  apply H30. vm_compute. reflexivity.
Defined.

(** C6, as stated, fails: with the floor, a 08:00 departure seen at
    08:05:30 would be 5 minutes gone; the source reads 4. *)
Lemma minutes_until_not_floor :
  sscanf_d_colon_d "08:00" = [8; 0]
  /\ diff_seconds JST (sample_time + 330) 8 0 = -330
  /\ floor_minutes (diff_seconds JST (sample_time + 330) 8 0) = -5
  /\ diff_minutes JST (sample_time + 330) 8 0 = -4
  /\ diff_minutes JST (sample_time + 330) 8 0
     <> floor_minutes (diff_seconds JST (sample_time + 330) 8 0).
Proof.
  vm_compute. repeat split; try reflexivity. discriminate.
Qed.

(* ================================================================== *)
(** ** Frame Composer: departure rows *)

(** Closes a case whose hypotheses equate two different tiers or two
    different colours. *)
Ltac absurd_tier :=
  repeat match goal with
         | H : _ \/ _ |- _ => destruct H
         | H : _ /\ _ |- _ => destruct H
         | H : _ = _ |- _ => discriminate H
         end.

Lemma dest_field_of_tier tier destination :
  dest_field (tier_color tier) destination
  = match tier with
    | CRITICAL | LAST_TRAIN => (run_for_it, COL_RED)
    | WARNING => (leave_now, COL_YELLOW)
    | FIRST_TRAIN | NORMAL | UNKNOWN => (destination, COL_ORANGE)
    end.
Proof. destruct tier; reflexivity. Qed.

Lemma right_field_primary gmtoff width y dest_name line_type dep_time
    destination status t_now :
  right_field (draw_row gmtoff width false y dest_name line_type dep_time
                        destination status t_now)
  = mkDrawText (width - 50) y
      (snd (dest_field (tier_color (entry_tier gmtoff status dep_time t_now))
                       destination))
      (fst (dest_field (tier_color (entry_tier gmtoff status dep_time t_now))
                       destination)).
Proof.
  unfold draw_row. rewrite countdown_refines. cbv beta iota.
  destruct (dest_field _ destination). reflexivity.
Qed.

(** Every row the loop draws is [draw_row] on the strings read from the
    member. *)
Lemma draw_entry_rendered gmtoff width alt y dest_name val t_now row :
  draw_entry gmtoff width alt y dest_name val t_now = Return row ->
  row = []
  \/ exists line_type dep_time destination status,
       row = draw_row gmtoff width alt y dest_name line_type dep_time
                      destination status t_now.
Proof.
  unfold draw_entry, rbind.
  destruct (negb (is_null val) && contains val "segments"
            && negb (empty (at_key val "segments")));
    [|intro H; left; congruence].
  destruct (first_segment _) as [seg|]; [|discriminate].
  destruct (value seg "type" "") as [line_type|]; [|discriminate].
  destruct (value val "departure_time" "--:--") as [dep_time|];
    [|discriminate].
  destruct (value seg "destination" "") as [destination|]; [|discriminate].
  destruct (value val "status" "") as [status|]; [|discriminate].
  intro H. right. exists line_type, dep_time, destination, status.
  congruence.
Qed.

(** The sample board in the primary layout: 16 minutes to go. *)
Example sample_frame :
  draw_departures JST matrix_width false (fun _ => sample_time) sample_data
  = Return [ mkDrawText 0 9 COL_WHITE "東京方面";
             mkDrawText 45 9 COL_RED "16分後";
             mkDrawText 78 9 COL_RED "駅まで走れ" ].
Proof. vm_compute. reflexivity. Qed.

(** C1, as the source has it: in the primary layout the right-aligned
    field of a rendered entry shows a substitute phrase in the colour of
    the tier if and only if the tier is CRITICAL, WARNING or LAST_TRAIN
    (the tiers drawn in red or yellow): "駅まで走れ" in red for CRITICAL
    and LAST_TRAIN, "今すぐ出発" in yellow for WARNING.  For FIRST_TRAIN,
    NORMAL and UNKNOWN it shows the literal destination. *)
Theorem primary_right_field gmtoff width y dest_name line_type dep_time
    destination status t_now :
  let tier := entry_tier gmtoff status dep_time t_now in
  let field :=
    right_field (draw_row gmtoff width false y dest_name line_type dep_time
                          destination status t_now) in
  (shows_substitute field tier
   <-> tier = CRITICAL \/ tier = WARNING \/ tier = LAST_TRAIN)
  /\ (tier = CRITICAL \/ tier = LAST_TRAIN ->
      dt_text field = run_for_it /\ dt_color field = COL_RED)
  /\ (tier = WARNING ->
      dt_text field = leave_now /\ dt_color field = COL_YELLOW)
  /\ (tier = FIRST_TRAIN \/ tier = NORMAL \/ tier = UNKNOWN ->
      shows_destination field destination)
  /\ dt_x field = width - 50 /\ dt_y field = y.
Proof.
  intros tier field. subst field. rewrite right_field_primary.
  fold tier. rewrite dest_field_of_tier.
  unfold shows_substitute, shows_destination.
  destruct tier; cbn [fst snd dt_text dt_color dt_x dt_y tier_color];
    repeat split; intros; absurd_tier; auto.
Qed.

(** C1, as stated, fails on a last train: its tier is LAST_TRAIN, not
    CRITICAL or WARNING, and the field shows "駅まで走れ" in red instead
    of the destination. *)
Lemma last_train_shows_substitute :
  let field :=
    right_field (draw_row JST matrix_width false 9 "東京" "快速" "23:50"
                          "東京" "終電" sample_time) in
  entry_tier JST "終電" "23:50" sample_time = LAST_TRAIN
  /\ field = mkDrawText 78 9 COL_RED "駅まで走れ"
  /\ shows_substitute field LAST_TRAIN
  /\ ~ shows_destination field "東京".
Proof.
  vm_compute. repeat split; auto.
  intros [H _]. discriminate H.
Qed.

(* ================================================================== *)
(** ** Frame Composer: ticker *)

Lemma int_wrap_small z : - 2 ^ 31 <= z < 2 ^ 31 -> int_wrap z = z.
Proof.
  intro H. unfold int_wrap. rewrite Z.mod_small; lia.
Qed.

Lemma text_width_small msg :
  6 * Z.of_nat (String.length msg) <= INT_MAX ->
  text_width msg = 6 * Z.of_nat (String.length msg).
Proof.
  unfold INT_MAX, text_width. intro H.
  rewrite (int_wrap_small (Z.of_nat _)) by lia.
  rewrite int_wrap_small; lia.
Qed.

Lemma checked_index_lt msgs i :
  (i < List.length msgs)%nat -> checked_index msgs i = i.
Proof.
  unfold checked_index. intro H.
  destruct (Nat.leb_spec (List.length msgs) i); [lia | reflexivity].
Qed.

Lemma checked_index_wraps msgs i :
  (List.length msgs <= i)%nat -> checked_index msgs i = 0%nat.
Proof.
  unfold checked_index. intro H.
  destruct (Nat.leb_spec (List.length msgs) i); [reflexivity | lia].
Qed.

Lemma run_ticker_S width data n st :
  run_ticker width data (S n) st
  = ((fst (draw_ticker width data st)
        ++ fst (run_ticker width data n (snd (draw_ticker width data st))))%list,
     snd (run_ticker width data n (snd (draw_ticker width data st)))).
Proof.
  cbn [run_ticker]. destruct (draw_ticker width data st) as [cmd st'].
  cbn [fst snd]. now destruct (run_ticker width data n st').
Qed.

Section Scroll.

Variable width : Z.
Variable data : DisplayData.
Variable i : nat.
Variable msg : string.

Hypothesis current : nth_error (scroll_messages data) i = Some msg.
Hypothesis msg_fits : 6 * Z.of_nat (String.length msg) <= INT_MAX.

Let W : Z := 6 * Z.of_nat (String.length msg).
Let col : Color := ToMatrixColor (nth i (scroll_colors data) COL_BLACK).

Lemma current_in_range : (i < List.length (scroll_messages data))%nat.
Proof. apply nth_error_Some. rewrite current. discriminate. Qed.

Lemma draw_ticker_current x :
  - 2 ^ 31 <= x - 1 -> x <= INT_MAX ->
  draw_ticker width data (mkTicker x i)
  = ([mkDrawText x 31 col msg],
     if x - 1 <? - W then mkTicker width (S i) else mkTicker (x - 1) i).
Proof.
  intros Hlo Hhi. unfold draw_ticker, INT_MAX in *.
  pose proof current_in_range as Hi.
  destruct (scroll_messages data) as [|m0 ms] eqn:Hmsgs;
    [simpl in Hi; lia|].
  cbn [msg_index scroll_x]. rewrite <- Hmsgs in *.
  rewrite (checked_index_lt _ _ Hi).
  rewrite (nth_error_nth _ _ "" current).
  rewrite (text_width_small _ msg_fits).
  rewrite int_wrap_small by lia.
  fold W col. destruct (x - 1 <? - W); reflexivity.
Qed.

Lemma run_ticker_scrolling k : forall x,
  - W <= x - Z.of_nat k -> x <= INT_MAX ->
  run_ticker width data k (mkTicker x i)
  = (scroll_trace col msg x k, mkTicker (x - Z.of_nat k) i).
Proof.
  assert (HW : 0 <= W <= INT_MAX) by (subst W; lia).
  unfold INT_MAX in *.
  induction k as [|k IH]; intros x Hx Hmax.
  - simpl. now rewrite Z.sub_0_r.
  - rewrite run_ticker_S.
    rewrite draw_ticker_current by (unfold INT_MAX; lia).
    destruct (Z.ltb_spec (x - 1) (- W)); [lia|].
    cbn [fst snd]. rewrite IH by lia.
    cbn [fst snd app scroll_trace]. do 2 f_equal. lia.
Qed.

Lemma run_ticker_advancing k : forall x,
  - W = x - Z.of_nat k -> x <= INT_MAX ->
  run_ticker width data (S k) (mkTicker x i)
  = (scroll_trace col msg x (S k), mkTicker width (S i)).
Proof.
  assert (HW : 0 <= W <= INT_MAX) by (subst W; lia).
  unfold INT_MAX in *.
  induction k as [|k IH]; intros x Hx Hmax.
  - rewrite run_ticker_S.
    rewrite draw_ticker_current by (unfold INT_MAX; lia).
    destruct (Z.ltb_spec (x - 1) (- W)); [reflexivity | lia].
  - rewrite run_ticker_S.
    rewrite draw_ticker_current by (unfold INT_MAX; lia).
    destruct (Z.ltb_spec (x - 1) (- W)); [lia|].
    cbn [fst snd]. rewrite IH by lia. reflexivity.
Qed.

End Scroll.

Lemma scroll_trace_nth col msg n : forall from k,
  (k < n)%nat ->
  nth_error (scroll_trace col msg from n) k
  = Some (mkDrawText (from - Z.of_nat k) 31 col msg).
Proof.
  induction n as [|n IH]; intros from k Hk; [lia|].
  destruct k as [|k]; cbn [scroll_trace nth_error].
  - now rewrite Z.sub_0_r.
  - rewrite IH by lia. do 2 f_equal. lia.
Qed.

Lemma scroll_trace_length col msg n : forall from,
  List.length (scroll_trace col msg from n) = n.
Proof.
  induction n as [|n IH]; intro from; simpl; [reflexivity | now rewrite IH].
Qed.

(** C3: a message of width W (six pixels per byte) that becomes current
    at the offset D, the display width, is drawn one pixel further left
    each frame, at D, D-1, ..., -W: D + W scroll steps, through which the
    cursor stays on the message.  The frame that draws it at -W, where
    it has left the display, advances to the next item and resets the
    offset to D; an index past the last item is taken back to the first
    item by the next frame. *)
Theorem ticker_scroll_steps width data i msg :
  0 <= width <= INT_MAX ->
  nth_error (scroll_messages data) i = Some msg ->
  6 * Z.of_nat (String.length msg) <= INT_MAX ->
  let W := 6 * Z.of_nat (String.length msg) in
  let col := ToMatrixColor (nth i (scroll_colors data) COL_BLACK) in
  let steps := Z.to_nat (width + W) in
  text_width msg = W
  /\ (forall k, (k <= steps)%nat ->
        run_ticker width data k (mkTicker width i)
        = (scroll_trace col msg width k, mkTicker (width - Z.of_nat k) i))
  /\ run_ticker width data (S steps) (mkTicker width i)
     = (scroll_trace col msg width (S steps), mkTicker width (S i))
  /\ nth_error (scroll_trace col msg width (S steps)) steps
     = Some (mkDrawText (- W) 31 col msg)
  /\ (S i = List.length (scroll_messages data) ->
      forall x,
        fst (draw_ticker width data (mkTicker x (S i)))
        = [mkDrawText x 31
             (ToMatrixColor (nth 0 (scroll_colors data) COL_BLACK))
             (nth 0 (scroll_messages data) "")]
        /\ (msg_index (snd (draw_ticker width data (mkTicker x (S i))))
            <= 1)%nat).
Proof.
  intros Hwidth Hcur Hfits W col steps.
  assert (Hsteps : Z.of_nat steps = width + W) by (subst steps W; lia).
  split; [apply text_width_small; exact Hfits|].
  split.
  { intros k Hk.
    apply (run_ticker_scrolling width data i msg Hcur Hfits); fold W; lia. }
  split.
  { apply (run_ticker_advancing width data i msg Hcur Hfits); fold W; lia. }
  split.
  { rewrite scroll_trace_nth by lia. do 2 f_equal. lia. }
  intros Hlast x. unfold draw_ticker.
  destruct (scroll_messages data) as [|m0 ms] eqn:Hmsgs; [discriminate|].
  cbn [msg_index scroll_x].
  rewrite checked_index_wraps by lia.
  destruct (int_wrap (x - 1) <? - text_width (nth 0 (m0 :: ms) ""));
    cbn [fst snd msg_index]; split; (reflexivity || lia).
Qed.

Lemma ticker_scroll_steps_witness :
  run_ticker 3 small_ticker 15 (mkTicker 3 0)
  = (scroll_trace COL_WHITE "ab" 3 15, mkTicker (-12) 0)
  /\ run_ticker 3 small_ticker 16 (mkTicker 3 0)
     = (scroll_trace COL_WHITE "ab" 3 16, mkTicker 3 1).
Proof.
  destruct (ticker_scroll_steps 3 small_ticker 0 "ab")
    as (_ & Hstay & Hnext & _);
    [vm_compute; split; discriminate | reflexivity
     | vm_compute; discriminate |].
  split.
  - apply (Hstay 15%nat). vm_compute. lia.
  - exact Hnext.
Defined.

(** On the two-item ticker: the second, and last, item scrolls for
    3 + 6 steps, and the frame after its last one shows the first item
    again, at the offset 3. *)
Example ticker_wraps_to_first :
  snd (run_ticker 3 small_ticker 10 (mkTicker 3 1)) = mkTicker 3 2
  /\ draw_ticker 3 small_ticker (mkTicker 3 2)
     = ([mkDrawText 3 31 COL_WHITE "ab"], mkTicker 2 0).
Proof. vm_compute. split; reflexivity. Qed.

(* ================================================================== *)
(** * Further properties of the source *)

(** ** Calendar time *)

Lemma all_from_spec fuel p : forall z,
  all_from fuel z p = true ->
  forall x, z <= x < z + Z.of_nat fuel -> p x = true.
Proof.
  induction fuel as [|fuel IH]; intros z H x Hx; [lia|].
  cbn [all_from] in H. apply andb_prop in H. destruct H as [Hz H].
  destruct (Z.eq_dec x z) as [->|Hne]; [exact Hz|].
  apply (IH (z + 1) H). lia.
Qed.

(** The 146097 days of an era, one by one. *)
Lemma era_days_ok : all_from (Z.to_nat 146097) 0 era_day_ok = true.
Proof. vm_cast_no_check (eq_refl true). Qed.

Lemma era_day_ok_all doe : 0 <= doe < 146097 -> era_day_ok doe = true.
Proof.
  intro H. apply (all_from_spec _ _ _ era_days_ok).
  rewrite Z2Nat.id; lia.
Qed.

Lemma civil_shift z k :
  civil_from_days (z + 146097 * k)
  = let '(y, m, d) := civil_from_days z in (y + 400 * k, m, d).
Proof.
  unfold civil_from_days.
  replace (z + 146097 * k + 719468) with (z + 719468 + k * 146097) by lia.
  rewrite Z.div_add by lia.
  set (q := (z + 719468) / 146097).
  replace (z + 719468 + k * 146097 - (q + k) * 146097)
    with (z + 719468 - q * 146097) by lia.
  cbv zeta. f_equal. f_equal. lia.
Qed.

Lemma days_shift y m d k :
  days_from_civil (y + 400 * k) m d = days_from_civil y m d + 146097 * k.
Proof.
  unfold days_from_civil.
  set (y' := if m <=? 2 then y - 1 else y).
  replace (if m <=? 2 then y + 400 * k - 1 else y + 400 * k)
    with (y' + k * 400) by (subst y'; destruct (m <=? 2); lia).
  rewrite Z.div_add by lia. cbv zeta.
  replace (y' + k * 400 - (y' / 400 + k) * 400) with (y' - y' / 400 * 400)
    by lia.
  lia.
Qed.

(** A day number and its date determine each other. *)
Lemma civil_round_trip z :
  let '(y, m, d) := civil_from_days z in
  days_from_civil y m d = z /\ 1 <= m <= 12 /\ 1 <= d <= 31.
Proof.
  set (era := (z + 719468) / 146097).
  set (doe := (z + 719468) mod 146097).
  assert (Hz : z = doe - 719468 + 146097 * era).
  { subst era doe. pose proof (Z.div_mod (z + 719468) 146097). lia. }
  assert (Hdoe : 0 <= doe < 146097)
    by (subst doe; apply Z.mod_pos_bound; lia).
  pose proof (era_day_ok_all doe Hdoe) as Hok.
  clearbody era doe. subst z. rewrite civil_shift.
  unfold era_day_ok in Hok.
  destruct (civil_from_days (doe - 719468)) as [[y m] d].
  rewrite days_shift.
  repeat (apply andb_prop in Hok; destruct Hok as [Hok ?]).
  apply Z.eqb_eq in Hok. lia.
Qed.

Lemma days_from_civil_day y m d :
  days_from_civil y m d = days_from_civil y m 1 + (d - 1).
Proof. unfold days_from_civil. lia. Qed.

(** The fields [localtime] fills are in their ranges. *)
Lemma localtime_ranges gmtoff t :
  let tm_now := localtime gmtoff t in
  0 <= tm_sec tm_now < 60 /\ 0 <= tm_min tm_now < 60
  /\ 0 <= tm_hour tm_now < 24 /\ 1 <= tm_mday tm_now <= 31
  /\ 0 <= tm_mon tm_now < 12 /\ 0 <= tm_wday tm_now < 7.
Proof.
  unfold localtime.
  pose proof (civil_round_trip ((t + gmtoff) / 86400)) as Hc.
  destruct (civil_from_days _) as [[y m] d].
  cbn [tm_sec tm_min tm_hour tm_mday tm_mon tm_wday].
  pose proof (Z.mod_pos_bound (t + gmtoff) 86400 eq_refl).
  repeat split; try (apply Z.mod_pos_bound; lia); try lia.
  - apply Z.div_pos; lia.
  - apply Z.div_lt_upper_bound; lia.
Qed.

(** [mktime] undoes [localtime]. *)
Lemma mktime_localtime gmtoff t : mktime gmtoff (localtime gmtoff t) = t.
Proof.
  unfold localtime, mktime.
  pose proof (civil_round_trip ((t + gmtoff) / 86400)) as Hc.
  destruct (civil_from_days _) as [[y m] d].
  destruct Hc as (Hdays & Hm & Hd).
  cbn [tm_sec tm_min tm_hour tm_mday tm_mon tm_year].
  replace ((m - 1) / 12) with 0
    by (symmetry; apply Z.div_small; lia).
  replace ((m - 1) mod 12 + 1) with m
    by (rewrite Z.mod_small; lia).
  replace (y - 1900 + 1900 + 0) with y by lia.
  rewrite <- days_from_civil_day, Hdays.
  set (l := t + gmtoff).
  pose proof (Z.div_mod l 86400).
  set (secs := l mod 86400) in *.
  pose proof (Z.mod_pos_bound l 86400 eq_refl).
  fold secs in H0.
  pose proof (Z.div_mod secs 3600). pose proof (Z.div_mod secs 60).
  pose proof (Z.div_mod (secs / 60) 60).
  pose proof (Z.mod_pos_bound secs 3600 eq_refl).
  pose proof (Z.mod_pos_bound secs 60 eq_refl).
  pose proof (Z.mod_pos_bound (secs / 60) 60 eq_refl).
  assert (secs / 60 / 60 = secs / 3600)
    by (rewrite Z.div_div by lia; reflexivity).
  lia.
Qed.

(** ** Countdown: what the arithmetic amounts to *)

Lemma mktime_candidate gmtoff tm_now dep_hour dep_min :
  mktime gmtoff (candidate tm_now dep_hour dep_min) - mktime gmtoff tm_now
  = (if (dep_hour <? 3) && (3 <=? tm_hour tm_now) then 86400 else 0)
    + 3600 * (dep_hour - tm_hour tm_now)
    + 60 * (dep_min - tm_min tm_now)
    - tm_sec tm_now.
Proof.
  unfold candidate, mktime.
  destruct ((dep_hour <? 3) && (3 <=? tm_hour tm_now));
    cbn [tm_sec tm_min tm_hour tm_mday tm_mon tm_year tm_wday];
    generalize (days_from_civil (tm_year tm_now + 1900 + tm_mon tm_now / 12)
                                (tm_mon tm_now mod 12 + 1) 1);
    intro day0; lia.
Qed.

Lemma diff_seconds_formula gmtoff t_now dep_hour dep_min :
  diff_seconds gmtoff t_now dep_hour dep_min
  = (if (dep_hour <? 3) && (3 <=? tm_hour (localtime gmtoff t_now))
     then 86400 else 0)
    + 3600 * (dep_hour - tm_hour (localtime gmtoff t_now))
    + 60 * (dep_min - tm_min (localtime gmtoff t_now))
    - tm_sec (localtime gmtoff t_now).
Proof.
  pose proof (mktime_candidate gmtoff (localtime gmtoff t_now)
                               dep_hour dep_min) as H.
  rewrite mktime_localtime in H. exact H.
Qed.

(** X1: the seconds to the candidate instant depend on the time of day
    only, not on the date: they are the difference of the two times of
    day, plus one day when the rollover rule fires. *)
Theorem countdown_by_time_of_day gmtoff t_now dep_hour dep_min :
  let tm_now := localtime gmtoff t_now in
  diff_seconds gmtoff t_now dep_hour dep_min
  = (if (dep_hour <? 3) && (3 <=? tm_hour tm_now) then 86400 else 0)
    + 3600 * (dep_hour - tm_hour tm_now)
    + 60 * (dep_min - tm_min tm_now)
    - tm_sec tm_now.
Proof.
  intro tm_now. subst tm_now.
  pose proof (mktime_candidate gmtoff (localtime gmtoff t_now)
                               dep_hour dep_min) as Hdiff.
  rewrite mktime_localtime in Hdiff.
  unfold diff_seconds. exact Hdiff.
Qed.

Lemma quot_60_le s n : 1 <= n -> (Z.quot s 60 + 1 <= n <-> s < 60 * n).
Proof.
  intro Hn. destruct (quot_floor s) as [Hpos Hneg].
  pose proof (Z.div_mod s 60). pose proof (Z.mod_pos_bound s 60).
  destruct (Z_lt_le_dec s 0) as [Hs|Hs].
  - rewrite (Hneg Hs). destruct (Z.eqb_spec (s mod 60) 0); lia.
  - rewrite (Hpos Hs). lia.
Qed.

Lemma length_append s1 s2 :
  String.length (s1 ++ s2) = (String.length s1 + String.length s2)%nat.
Proof. induction s1 as [|a s1 IH]; simpl; [reflexivity | now rewrite IH]. Qed.

(** A countdown in minutes never reads "始発". *)
Lemma minutes_text_not_first n : to_string n ++ "分後" <> "始発".
Proof.
  intro H. destruct (to_string n) as [|a t]; [discriminate H|].
  apply (f_equal String.length) in H. cbn [append String.length] in H.
  rewrite length_append in H. simpl in H. lia.
Qed.

(** X2: in seconds, the tiers are half-open intervals: an entry whose
    candidate instant is less than 17 minutes ahead, or already past, is
    CRITICAL (red); from 17:00 to 19:59 ahead it is WARNING (yellow),
    from 20:00 to 98:59 NORMAL (green), and from 99:00 on it reads
    "始発" (blue). *)
Theorem tier_by_seconds gmtoff status dep_time t_now dep_hour dep_min :
  status <> "始発" ->
  status <> "終電" ->
  sscanf_d_colon_d dep_time = [dep_hour; dep_min] ->
  let seconds := diff_seconds gmtoff t_now dep_hour dep_min in
  let tier :=
    if 5940 <=? seconds then FIRST_TRAIN
    else if seconds <? 1020 then CRITICAL
    else if seconds <? 1200 then WARNING
    else NORMAL in
  entry_tier gmtoff status dep_time t_now = tier
  /\ snd (countdown gmtoff status dep_time t_now) = tier_color tier
  /\ (fst (countdown gmtoff status dep_time t_now) = "始発"
      <-> 5940 <= seconds).
Proof.
  intros Hfirst Hlast Hscan seconds tier.
  assert (Htier : entry_tier gmtoff status dep_time t_now = tier).
  { unfold entry_tier.
    apply String.eqb_neq in Hfirst. apply String.eqb_neq in Hlast.
    rewrite Hfirst, Hlast, Hscan. unfold tier_of_minutes, diff_minutes.
    fold seconds. subst tier.
    pose proof (quot_60_le seconds 99) as H99.
    pose proof (quot_60_le seconds 17) as H17.
    pose proof (quot_60_le seconds 20) as H20.
    destruct (Z.ltb_spec 99 (Z.quot seconds 60 + 1)),
      (Z.leb_spec (Z.quot seconds 60 + 1) 17),
      (Z.leb_spec (Z.quot seconds 60 + 1) 20),
      (Z.leb_spec 5940 seconds), (Z.ltb_spec seconds 1020),
      (Z.ltb_spec seconds 1200); try reflexivity; lia. }
  rewrite countdown_refines, Htier. cbn [fst snd].
  split; [reflexivity|]. split; [reflexivity|].
  subst tier.
  destruct (Z.leb_spec 5940 seconds); [split; [lia | reflexivity]|].
  split; [|lia]. intro Htext. exfalso.
  destruct (seconds <? 1020); [|destruct (seconds <? 1200)];
    exact (minutes_text_not_first _ Htext).
Qed.

Lemma tier_by_seconds_witness :
  diff_seconds JST sample_time 8 15 = 900
  /\ entry_tier JST "" "08:15" sample_time = CRITICAL
  /\ snd (countdown JST "" "08:15" sample_time) = COL_RED.
Proof.
  split; [vm_compute; reflexivity|].
  destruct (tier_by_seconds JST "" "08:15" sample_time 8 15)
    as (Ht & Hc & _); [discriminate | discriminate | vm_compute; reflexivity|].
  split; [rewrite Ht | rewrite Hc]; vm_compute; reflexivity.
Defined.

(** X3: while the candidate instant stays the same (the same calendar
    day, on the same side of 03:00), the minutes counted down never
    increase as the clock advances, and a minute later they are exactly
    one less. *)
Theorem countdown_decreases gmtoff t1 t2 dep_hour dep_min :
  t1 <= t2 ->
  candidate (localtime gmtoff t1) dep_hour dep_min
  = candidate (localtime gmtoff t2) dep_hour dep_min ->
  diff_minutes gmtoff t2 dep_hour dep_min
  <= diff_minutes gmtoff t1 dep_hour dep_min
  /\ (t2 = t1 + 60 -> 60 <= diff_seconds gmtoff t1 dep_hour dep_min ->
      diff_minutes gmtoff t2 dep_hour dep_min
      = diff_minutes gmtoff t1 dep_hour dep_min - 1).
Proof.
  intros Hle Hcand. unfold diff_minutes, diff_seconds. rewrite Hcand.
  set (t_dep := mktime gmtoff _). split.
  - apply Z.add_le_mono_r, Z.quot_le_mono; lia.
  - intros -> Hs.
    rewrite !Z.quot_div_nonneg by lia.
    replace (t_dep - (t1 + 60)) with (t_dep - t1 + (-1) * 60) by lia.
    rewrite Z.div_add by lia. lia.
Qed.

Lemma countdown_decreases_witness :
  diff_minutes JST (sample_time + 60) 8 15
  = diff_minutes JST sample_time 8 15 - 1.
Proof.
  apply (countdown_decreases JST sample_time (sample_time + 60) 8 15).
  - lia.
  - vm_compute. reflexivity.
  - reflexivity.
  - vm_compute. discriminate.
Defined.

(** X4: with the rollover rule a departure between 00:00 and 02:59 is
    never counted as gone while the clock shows 03:00 or later: it is
    more than 0 seconds and less than a day ahead.  Without the rule
    firing, a departure time of the day is less than a day away, before
    or after the clock. *)
Theorem after_midnight_is_ahead gmtoff t_now dep_hour dep_min :
  0 <= dep_hour < 24 ->
  0 <= dep_min < 60 ->
  let seconds := diff_seconds gmtoff t_now dep_hour dep_min in
  (dep_hour < 3 -> 3 <= tm_hour (localtime gmtoff t_now) ->
   0 < seconds < 86400)
  /\ (3 <= dep_hour \/ tm_hour (localtime gmtoff t_now) < 3 ->
      - 86400 < seconds < 86400).
Proof.
  intros Hh Hm seconds. subst seconds. rewrite diff_seconds_formula.
  destruct (localtime_ranges gmtoff t_now) as (Hsec & Hmin & Hhour & _).
  generalize dependent (localtime gmtoff t_now). intros tm_now Hsec Hmin Hhour.
  destruct (Z.ltb_spec dep_hour 3), (Z.leb_spec 3 (tm_hour tm_now));
    cbn [andb]; split; intros; lia.
Qed.

Lemma after_midnight_is_ahead_witness :
  diff_seconds JST (sample_time + 15 * 3600 + 50 * 60) 0 10 = 1200
  /\ 0 < diff_seconds JST (sample_time + 15 * 3600 + 50 * 60) 0 10 < 86400.
Proof.
  split; [vm_compute; reflexivity|].
  destruct (after_midnight_is_ahead
              JST (sample_time + 15 * 3600 + 50 * 60) 0 10) as [Hahead _];
    [lia | lia |].
  apply Hahead; [lia | vm_compute; discriminate].
Defined.

(** ** Train-type colours *)

Lemma prefix_spec key s :
  String.prefix key s = true <-> exists post, s = key ++ post.
Proof.
  revert s. induction key as [|a key IH]; intro s.
  - destruct s; simpl; (split; [intros _; now eexists | reflexivity]).
  - destruct s as [|c s]; simpl.
    + split; [discriminate | intros [post H]; discriminate].
    + destruct (ascii_dec a c) as [->|Hne].
      * rewrite IH. split; intros [post H]; exists post; congruence.
      * split; [discriminate | intros [post H]; congruence].
Qed.

Lemma has_substring_spec key s : has_substring key s = true <-> occurs key s.
Proof.
  unfold occurs. induction s as [|c s IH].
  - cbn [has_substring]. rewrite orb_false_r, prefix_spec. split.
    + intros [post H]. now exists "", post.
    + intros (pre & post & H). destruct pre; [now exists post|discriminate].
  - cbn [has_substring]. rewrite orb_true_iff, IH, prefix_spec. split.
    + intros [[post H] | (pre & post & H)].
      * now exists "", post.
      * exists (String c pre), post. simpl. now rewrite H.
    + intros (pre & post & H). destruct pre as [|c' pre].
      * left. now exists post.
      * right. exists pre, post. simpl in H. congruence.
Qed.

(** X5: the colour of a line type is that of the first name of the table
    that occurs in it, whatever names occur later in the table. *)
Theorem type_color_first_match map1 key c map2 line_type :
  (forall k c', In (k, c') map1 -> ~ occurs k line_type) ->
  occurs key line_type ->
  type_color (map1 ++ (key, c) :: map2) line_type = ToMatrixColor c.
Proof.
  intros Hbefore Hkey. induction map1 as [|[k c'] map1 IH]; simpl.
  - apply has_substring_spec in Hkey. now rewrite Hkey.
  - destruct (has_substring k line_type) eqn:Hk.
    + apply has_substring_spec in Hk.
      exfalso. apply (Hbefore k c'); [now left | exact Hk].
    + apply IH. intros k0 c0 Hin. apply (Hbefore k0 c0). now right.
Qed.

(** X6: a line type in which no name of the table occurs is white. *)
Theorem type_color_unmatched map line_type :
  (forall k c, In (k, c) map -> ~ occurs k line_type) ->
  type_color map line_type = ToMatrixColor COL_WHITE.
Proof.
  intro Hnone. induction map as [|[k c] map IH]; simpl; [reflexivity|].
  destruct (has_substring k line_type) eqn:Hk.
  - apply has_substring_spec in Hk.
    exfalso. apply (Hnone k c); [now left | exact Hk].
  - apply IH. intros k0 c0 Hin. apply (Hnone k0 c0). now right.
Qed.

Lemma not_occurs key s : has_substring key s = false -> ~ occurs key s.
Proof.
  intros H Hocc. apply has_substring_spec in Hocc. congruence.
Qed.

Lemma none_occurs (table : list (string * ColorRGB)) s :
  forallb (fun entry => negb (has_substring (fst entry) s)) table = true ->
  forall k c, In (k, c) table -> ~ occurs k s.
Proof.
  intros H k c Hin. rewrite forallb_forall in H.
  specialize (H (k, c) Hin). apply not_occurs.
  now apply negb_true_iff in H.
Qed.

Lemma type_color_first_match_witness :
  type_color type_color_map "通勤快速" = COL_RED.
Proof.
  apply (type_color_first_match (firstn 9 type_color_map) "快速" COL_RED
           (skipn 10 type_color_map) "通勤快速").
  - apply none_occurs. vm_compute. reflexivity.
  - apply has_substring_spec. vm_compute. reflexivity.
Defined.

Lemma type_color_unmatched_witness :
  type_color type_color_map "Local" = COL_WHITE.
Proof.
  apply (type_color_unmatched type_color_map "Local").
  apply none_occurs. vm_compute. reflexivity.
Defined.

(** X7: although names of the table occur in one another (快速 in
    快速急行, 区間快速 and 新快速, 特快 in 通勤特快 and 中央特快, 各駅 in
    各駅停車), the order of the table gives every name its own colour. *)
Theorem type_color_map_own_colors :
  forall key c,
    In (key, c) type_color_map ->
    type_color type_color_map key = ToMatrixColor c.
Proof.
  assert (H : forallb (fun entry =>
                same_rgb (type_color type_color_map (fst entry))
                         (ToMatrixColor (snd entry))) type_color_map = true)
    by (vm_compute; reflexivity).
  intros key c Hin. rewrite forallb_forall in H.
  specialize (H (key, c) Hin). cbn [fst snd] in H.
  unfold same_rgb in H.
  destruct (type_color type_color_map key) as [r1 g1 b1].
  destruct (ToMatrixColor c) as [r2 g2 b2]. cbn [r g b] in H.
  apply andb_prop in H. destruct H as [H Hb].
  apply andb_prop in H. destruct H as [Hr Hg].
  apply Z.eqb_eq in Hr, Hg, Hb. congruence.
Qed.

Lemma type_color_map_own_colors_witness :
  type_color type_color_map "快速急行" = COL_ORANGE
  /\ type_color type_color_map "快速" = COL_RED.
Proof.
  split.
  - apply (type_color_map_own_colors "快速急行" COL_ORANGE).
    vm_compute. auto.
  - apply (type_color_map_own_colors "快速" COL_RED).
    vm_compute. auto 20.
Defined.

(** ** Departure rows: members of the board *)

Lemma draw_entry_skipped gmtoff width alt y dest_name val t_now :
  rendered val = false ->
  draw_entry gmtoff width alt y dest_name val t_now = Return [].
Proof. unfold draw_entry, rendered. now intros ->. Qed.

Lemma draw_entry_typed gmtoff width alt y dest_name val t_now :
  rendered val = true ->
  entry_typed val = true ->
  draw_entry gmtoff width alt y dest_name val t_now
  = Return (draw_row gmtoff width alt y dest_name
              (field_or (first_seg val) "type" "")
              (field_or val "departure_time" "--:--")
              (field_or (first_seg val) "destination" "")
              (field_or val "status" "") t_now).
Proof.
  unfold draw_entry, rendered, entry_typed, first_seg. intros -> Hty.
  destruct (at_key val "segments") as [| | | |[|seg rest]|]; try discriminate.
  repeat (apply andb_prop in Hty; destruct Hty as [Hty ?]).
  cbn [first_segment rbind].
  rewrite (value_typed seg "type" "") by assumption. cbn [rbind].
  rewrite (value_typed val "departure_time" "--:--") by assumption.
  cbn [rbind].
  rewrite (value_typed seg "destination" "") by assumption. cbn [rbind].
  rewrite (value_typed val "status" "") by assumption. reflexivity.
Qed.

Lemma draw_entry_untyped gmtoff width alt y dest_name val t_now :
  rendered val = true ->
  entry_typed val = false ->
  exists e,
    draw_entry gmtoff width alt y dest_name val t_now = Throw e
    /\ (is_array (at_key val "segments") = false -> e = type_error 305).
Proof.
  unfold draw_entry, rendered, entry_typed. intros Hr Hty. rewrite Hr.
  apply andb_prop in Hr. destruct Hr as [_ Hne].
  destruct (at_key val "segments") as [| | | |[|seg rest]|[|member m]];
    try discriminate Hne;
    try (exists (type_error 305); split; reflexivity).
  cbn [first_segment rbind].
  destruct (string_member seg "type") eqn:H1;
    [rewrite (value_typed _ _ _ H1)
    | destruct (value_untyped _ _ "" H1) as [e ->];
      exists e; split; [reflexivity | discriminate]].
  destruct (string_member val "departure_time") eqn:H2;
    [rewrite (value_typed _ _ _ H2)
    | destruct (value_untyped _ _ "--:--" H2) as [e ->];
      exists e; split; [reflexivity | discriminate]].
  destruct (string_member seg "destination") eqn:H3;
    [rewrite (value_typed _ _ _ H3)
    | destruct (value_untyped _ _ "" H3) as [e ->];
      exists e; split; [reflexivity | discriminate]].
  destruct (string_member val "status") eqn:H4; [discriminate|].
  destruct (value_untyped _ _ "" H4) as [e ->].
  exists e. split; [reflexivity | discriminate].
Qed.

(** X8: what the loop body does with a member of the board.  A member
    that is null, has no segments or has empty segments draws nothing.
    Any other member is drawn from four strings, with the defaults "",
    "--:--", "" and "" for a missing type, departure time, destination
    and status, if its segments are an array and none of the four is
    present with another type; if not, a type_error leaves the loop
    body (305 when the segments are not an array), and [main] has no
    handler. *)
Theorem draw_entry_outcome gmtoff width alt y dest_name val t_now :
  match rendered val, entry_typed val with
  | false, _ =>
      draw_entry gmtoff width alt y dest_name val t_now = Return []
  | true, true =>
      draw_entry gmtoff width alt y dest_name val t_now
      = Return (draw_row gmtoff width alt y dest_name
                  (field_or (first_seg val) "type" "")
                  (field_or val "departure_time" "--:--")
                  (field_or (first_seg val) "destination" "")
                  (field_or val "status" "") t_now)
  | true, false =>
      exists e,
        draw_entry gmtoff width alt y dest_name val t_now = Throw e
        /\ (is_array (at_key val "segments") = false -> e = type_error 305)
  end.
Proof.
  destruct (rendered val) eqn:Hr.
  - destruct (entry_typed val) eqn:Hty.
    + now apply draw_entry_typed.
    + now apply draw_entry_untyped.
  - now apply draw_entry_skipped.
Qed.

Lemma field_or_missing val key default :
  string_member val key = true -> contains val key = false ->
  field_or val key default = default.
Proof.
  unfold string_member, contains, field_or.
  destruct val as [| | | | |m]; try discriminate.
  destruct (find key m) as [[]|]; try discriminate; reflexivity.
Qed.

(** X9: a member without a departure time (and not marked first or last
    train) shows "--:--" in green where the countdown would be, and its
    literal destination in orange, at any time of day. *)
Theorem missing_departure_time gmtoff width y dest_name val t_now :
  rendered val = true ->
  entry_typed val = true ->
  contains val "departure_time" = false ->
  field_or val "status" "" <> "始発" ->
  field_or val "status" "" <> "終電" ->
  draw_entry gmtoff width false y dest_name val t_now
  = Return [ mkDrawText 0 y COL_WHITE (dest_name ++ "方面");
             mkDrawText 45 y COL_GREEN "--:--";
             mkDrawText (width - 50) y COL_ORANGE
                        (field_or (first_seg val) "destination" "") ].
Proof.
  intros Hr Hty Hmiss Hfirst Hlast.
  rewrite (draw_entry_typed _ _ _ _ _ _ _ Hr Hty).
  assert (Hdt : string_member val "departure_time" = true).
  { unfold entry_typed in Hty.
    destruct (at_key val "segments") as [| | | |[|seg rest]|];
      try discriminate.
    repeat (apply andb_prop in Hty; destruct Hty as [Hty ?]). assumption. }
  rewrite (field_or_missing _ _ _ Hdt Hmiss).
  unfold draw_row, countdown.
  apply String.eqb_neq in Hfirst. apply String.eqb_neq in Hlast.
  rewrite Hfirst, Hlast. reflexivity.
Qed.

Lemma missing_departure_time_witness :
  draw_entry JST matrix_width false 9 "東京"
    (Jobject [("segments",
               Jarray [Jobject [("destination", Jstring "高尾")]])])
    sample_time
  = Return [ mkDrawText 0 9 COL_WHITE "東京方面";
             mkDrawText 45 9 COL_GREEN "--:--";
             mkDrawText 78 9 COL_ORANGE "高尾" ].
Proof.
  apply (missing_departure_time JST matrix_width 9 "東京"
           (Jobject [("segments",
                      Jarray [Jobject [("destination", Jstring "高尾")]])])
           sample_time); try reflexivity; discriminate.
Defined.

Lemma draw_row_shape gmtoff width alt y dest_name line_type dep_time
    destination status t_now :
  let row := draw_row gmtoff width alt y dest_name line_type dep_time
                      destination status t_now in
  List.length row = 3%nat /\ Forall (fun t => dt_y t = y) row.
Proof.
  unfold draw_row. destruct (countdown _ _ _ _) as [time_text time_col].
  destruct alt; [|destruct (dest_field _ _)];
    (split; [reflexivity | repeat constructor]).
Qed.

Lemma draw_items_from_2 gmtoff width alt clock its :
  draw_items gmtoff width alt clock its 2 = Return [].
Proof. now destruct its as [|[k v] its]. Qed.

Lemma rbind_return {A : Type} (x : result (list A)) :
  rbind x (fun row => rbind (Return []) (fun rows => Return (row ++ rows)%list))
  = x.
Proof. destruct x; cbn [rbind]; [now rewrite app_nil_r | reflexivity]. Qed.

Lemma draw_items_shape gmtoff width alt clock its rows :
  draw_items gmtoff width alt clock its 0 = Return rows ->
  (List.length rows <= 6)%nat
  /\ Forall (fun t => dt_y t = 9 \/ dt_y t = 20) rows.
Proof.
  assert (Hrow : forall y k v t row,
             draw_entry gmtoff width alt y k v t = Return row ->
             (List.length row <= 3)%nat /\ Forall (fun t => dt_y t = y) row).
  { intros y k v t row H.
    destruct (draw_entry_rendered _ _ _ _ _ _ _ _ H)
      as [->|(lt & dt & de & st & ->)].
    - split; [simpl; lia | constructor].
    - destruct (draw_row_shape gmtoff width alt y k lt dt de st t) as [Hl Hy].
      split; [rewrite Hl; lia | exact Hy]. }
  destruct its as [|[k1 v1] [|[k2 v2] rest]].
  - intro H. inversion H. split; [simpl; lia | constructor].
  - cbn [draw_items Nat.leb nth row_y_positions].
    intro H. rewrite rbind_return in H.
    destruct (Hrow _ _ _ _ _ H) as [Hl Hy]. split; [lia|].
    eapply Forall_impl; [|exact Hy]. cbv beta. auto.
  - cbn [draw_items Nat.leb nth row_y_positions].
    rewrite draw_items_from_2. intro H.
    destruct (draw_entry gmtoff width alt 9 k1 v1 (clock 0%nat))
      as [row1|] eqn:H1; [|discriminate].
    cbn [rbind] in H.
    destruct (draw_entry gmtoff width alt 20 k2 v2 (clock 1%nat))
      as [row2|] eqn:H2; [|discriminate].
    cbn [rbind] in H. inversion H; subst rows.
    destruct (Hrow _ _ _ _ _ H1) as [Hl1 Hy1].
    destruct (Hrow _ _ _ _ _ H2) as [Hl2 Hy2].
    rewrite app_nil_r. split; [rewrite length_app; lia|].
    apply Forall_app. split; (eapply Forall_impl; [|eassumption]);
      cbv beta; auto.
Qed.

(** X10: the loop over the board draws two rows at most: members after
    the second are never looked at, a frame holds at most six row texts,
    and they sit on the baselines 9 and 20. *)
Theorem two_rows_at_most gmtoff width alt clock its :
  draw_items gmtoff width alt clock its 0
  = draw_items gmtoff width alt clock (firstn 2 its) 0
  /\ forall rows,
       draw_items gmtoff width alt clock its 0 = Return rows ->
       (List.length rows <= 6)%nat
       /\ Forall (fun t => dt_y t = 9 \/ dt_y t = 20) rows.
Proof.
  split; [|apply draw_items_shape].
  destruct its as [|[k1 v1] [|[k2 v2] rest]]; try reflexivity.
  cbn [firstn draw_items Nat.leb nth row_y_positions].
  now rewrite !draw_items_from_2.
Qed.

(** X11: a member that draws nothing still takes its row: when the
    first member is skipped, the second one is drawn on the second
    baseline and the first row of the frame stays blank. *)
Theorem skipped_member_keeps_its_row gmtoff width alt clock k1 v1 k2 v2 rest :
  rendered v1 = false ->
  draw_items gmtoff width alt clock ((k1, v1) :: (k2, v2) :: rest) 0
  = draw_entry gmtoff width alt 20 k2 v2 (clock 1%nat).
Proof.
  intro Hskip. cbn [draw_items Nat.leb nth row_y_positions].
  rewrite (draw_entry_skipped _ _ _ _ _ _ _ Hskip), draw_items_from_2.
  cbn [rbind app].
  destruct (draw_entry gmtoff width alt 20 k2 v2 (clock 1%nat));
    cbn [rbind]; [now rewrite app_nil_r | reflexivity].
Qed.

Lemma skipped_member_keeps_its_row_witness :
  draw_items JST matrix_width false (fun _ => sample_time)
    (("新宿", Jnull) :: items sample_board) 0
  = Return [ mkDrawText 0 20 COL_WHITE "東京方面";
             mkDrawText 45 20 COL_RED "16分後";
             mkDrawText 78 20 COL_RED "駅まで走れ" ].
Proof.
  cbn [items sample_board].
  rewrite (skipped_member_keeps_its_row JST matrix_width false
             (fun _ => sample_time) "新宿" Jnull) by reflexivity.
  vm_compute. reflexivity.
Defined.

(** ** The rebuild: outcomes *)

(** X12: the rebuild returns normally exactly when every suspension and
    every delay is an object whose name and detail are strings or
    missing; on any other item the type_error of [value] leaves
    [update_scroll_messages], whose loops have no handler. *)
Theorem rebuild_returns_iff_typed gmtoff t_now d :
  (exists d', update_scroll_messages gmtoff t_now d = (Return tt, d'))
  <-> operation_typed (operation d) = true.
Proof.
  split.
  - intros [d' H]. destruct (operation_typed (operation d)) eqn:Hop;
      [reflexivity|].
    destruct (update_scroll_messages_untyped gmtoff t_now d Hop)
      as (e & d'' & He).
    congruence.
  - intro Hop. eexists. apply update_scroll_messages_typed. exact Hop.
Qed.

(** X13: a weather document that cannot be read as a record of strings
    (an array, a number, a record whose area name is a number) does not
    end the rebuild and adds no item: the ticker is the one an absent
    weather document gives. *)
Theorem unreadable_weather_is_absent gmtoff t_now d :
  operation_typed (operation d) = true ->
  weather_report (weather d) = false ->
  exists d' d0,
    update_scroll_messages gmtoff t_now d = (Return tt, d')
    /\ update_scroll_messages gmtoff t_now
         (mkData (departure d) (operation d) Jnull
                 (scroll_messages d) (scroll_colors d))
       = (Return tt, d0)
    /\ scroll_messages d' = scroll_messages d0
    /\ scroll_colors d' = scroll_colors d0.
Proof.
  intros Hop Hw. eexists. eexists.
  split; [apply update_scroll_messages_typed; exact Hop|].
  split; [apply update_scroll_messages_typed; exact Hop|].
  cbv zeta. cbn [departure operation weather scroll_messages scroll_colors].
  unfold ticker_order, ticker_items. rewrite Hw.
  split; reflexivity.
Qed.

Lemma unreadable_weather_is_absent_witness :
  exists d',
    update_scroll_messages JST sample_time
      (mkData sample_board Jnull (Jobject [("area_name", Jnumber 13)]) [] [])
    = (Return tt, d')
    /\ scroll_messages d' = ["本日は 10月30日（金）です"].
Proof.
  destruct (unreadable_weather_is_absent JST sample_time
              (mkData sample_board Jnull
                      (Jobject [("area_name", Jnumber 13)]) [] []))
    as (d' & d0 & Hrun & Hrun0 & Hm & _); [reflexivity | reflexivity |].
  exists d'. split; [exact Hrun|].
  rewrite Hm. vm_compute in Hrun0. inversion Hrun0. reflexivity.
Defined.

(** A rebuild starts from empty vectors: what the two vectors held
    before has no influence on its outcome or on what it leaves. *)
Lemma rebuild_from_scratch gmtoff t_now d msgs cols :
  update_scroll_messages gmtoff t_now
    (mkData (departure d) (operation d) (weather d) msgs cols)
  = update_scroll_messages gmtoff t_now d.
Proof. destruct d. reflexivity. Qed.

Lemma load_json_unavailable parse fs path :
  unavailable parse (fs path) -> load_json parse fs path = Return Jnull.
Proof.
  unfold unavailable, load_json, extract.
  destruct (fs path) as [| |bytes]; try reflexivity.
  cbn [is_open negb]. now destruct (parse bytes).
Qed.

(** X14: when none of the three documents can be loaded (no file, no
    read, or no parse), a refresh still returns; the ticker is the date
    item in white followed by the error item in red, and no departure
    row is drawn. *)
Theorem refresh_without_data parse gmtoff inp data :
  unavailable parse (files inp DEPARTURE_FILE) ->
  unavailable parse (files inp OPERATION_FILE) ->
  unavailable parse (files inp WEATHER_FILE) ->
  let data' :=
    mkData Jnull Jnull Jnull
           [date_buf (localtime gmtoff (wall_rebuild inp)); error_message]
           [COL_WHITE; COL_RED] in
  refresh parse gmtoff inp data = Return data'
  /\ forall width alt clock,
       draw_departures gmtoff width alt clock data' = Return [].
Proof.
  intros Hd Ho Hw data'. split; [|reflexivity]. unfold refresh.
  rewrite !load_json_unavailable by assumption. cbn [rbind].
  rewrite update_scroll_messages_typed by reflexivity. reflexivity.
Qed.

Lemma refresh_without_data_witness :
  refresh sample_parse JST
    (mkInput 0 (fun _ => OpenFails) sample_time (fun _ => sample_time)
             sample_time) sample_data
  = Return (mkData Jnull Jnull Jnull
              ["本日は 10月30日（金）です"; error_message]
              [COL_WHITE; COL_RED]).
Proof.
  destruct (refresh_without_data sample_parse JST
              (mkInput 0 (fun _ => OpenFails) sample_time
                       (fun _ => sample_time) sample_time) sample_data)
    as [Hrefresh _]; [exact I | exact I | exact I |].
  rewrite Hrefresh. reflexivity.
Defined.

(** ** The ticker: what a frame draws and a pass over the list *)

Lemma draw_ticker_in_step width data st :
  in_step data ->
  let i := checked_index (scroll_messages data) (msg_index st) in
  exists m c st',
    draw_ticker width data st
    = ([mkDrawText (scroll_x st) 31 (ToMatrixColor c) m], st')
    /\ nth_error (scroll_messages data) i = Some m
    /\ nth_error (scroll_colors data) i = Some c
    /\ (msg_index st' <= List.length (scroll_messages data))%nat
    /\ (scroll_x st' = width \/ scroll_x st' = int_wrap (scroll_x st - 1)).
Proof.
  intros [Hlen Hne]. cbv zeta.
  set (i := checked_index (scroll_messages data) (msg_index st)).
  assert (Hi : (i < List.length (scroll_messages data))%nat).
  { subst i. unfold checked_index.
    destruct (Nat.leb_spec (List.length (scroll_messages data)) (msg_index st)).
    - destruct (scroll_messages data); [contradiction | simpl; lia].
    - assumption. }
  destruct (nth_error (scroll_messages data) i) as [m|] eqn:Hm;
    [|apply nth_error_None in Hm; lia].
  destruct (nth_error (scroll_colors data) i) as [c|] eqn:Hc;
    [|apply nth_error_None in Hc; lia].
  assert (Hdraw : draw_ticker width data st
                  = ([mkDrawText (scroll_x st) 31 (ToMatrixColor c) m],
                     if int_wrap (scroll_x st - 1) <? - text_width m
                     then mkTicker width (S i)
                     else mkTicker (int_wrap (scroll_x st - 1)) i)).
  { unfold draw_ticker. fold i.
    rewrite (nth_error_nth _ _ "" Hm), (nth_error_nth _ _ COL_BLACK Hc).
    destruct (scroll_messages data); [contradiction|].
    now destruct (_ <? _). }
  exists m, c. eexists. split; [exact Hdraw|].
  destruct (int_wrap (scroll_x st - 1) <? - text_width m);
    cbn [msg_index scroll_x]; repeat split; auto; lia.
Qed.

Lemma nth_error_combine {A B : Type} (l : list A) : forall (l' : list B) i a c,
  nth_error l i = Some a -> nth_error l' i = Some c -> In (a, c) (combine l l').
Proof.
  induction l as [|a0 l IH]; intros [|c0 l'] [|i] a c Ha Hc;
    try discriminate; cbn [nth_error combine] in *.
  - left. congruence.
  - right. eapply IH; eassumption.
Qed.

Lemma rebuilt_in_step gmtoff t_now d :
  in_step (snd (update_scroll_messages gmtoff t_now d)).
Proof.
  destruct (update_scroll_messages_shape gmtoff t_now d) as [items ->].
  split; [cbn [scroll_messages scroll_colors]; now rewrite !length_map
         | discriminate].
Qed.

(** X15: after any rebuild, however it ended, and wherever the cursor
    stands (also past the end of a list that became shorter), a frame
    draws exactly one ticker text, at the offset of the cursor: a
    message of the list in the colour that was pushed with it; the index
    it leaves is at most the size of the list. *)
Theorem ticker_draws_a_paired_item gmtoff t_now d width st :
  let data := snd (update_scroll_messages gmtoff t_now d) in
  exists m c st',
    draw_ticker width data st
    = ([mkDrawText (scroll_x st) 31 (ToMatrixColor c) m], st')
    /\ In (m, c) (combine (scroll_messages data) (scroll_colors data))
    /\ (msg_index st' <= List.length (scroll_messages data))%nat.
Proof.
  intro data.
  assert (Hstep : in_step data) by apply rebuilt_in_step.
  destruct (draw_ticker_in_step width data st Hstep)
    as (m & c & st' & Hdraw & Hm & Hc & Hidx & _).
  exists m, c, st'. split; [exact Hdraw|]. split; [|exact Hidx].
  eapply nth_error_combine; eassumption.
Qed.

Lemma run_ticker_app width data n : forall m st,
  run_ticker width data (n + m) st
  = ((fst (run_ticker width data n st)
        ++ fst (run_ticker width data m (snd (run_ticker width data n st))))%list,
     snd (run_ticker width data m (snd (run_ticker width data n st)))).
Proof.
  induction n as [|n IH]; intros m st.
  - cbn [Nat.add run_ticker fst snd app].
    now destruct (run_ticker width data m st).
  - cbn [Nat.add]. rewrite !run_ticker_S, IH. cbn [fst snd].
    now rewrite app_assoc.
Qed.

Lemma ticker_pass width data : forall suf pre,
  0 <= width <= INT_MAX ->
  scroll_messages data = (pre ++ suf)%list ->
  Forall (fun msg => 6 * Z.of_nat (String.length msg) <= INT_MAX) suf ->
  run_ticker width data (pass_frames width suf)
             (mkTicker width (List.length pre))
  = (pass_trace width (scroll_colors data) (List.length pre) suf,
     mkTicker width (List.length (scroll_messages data))).
Proof.
  induction suf as [|msg suf IH]; intros pre Hw Hmsgs Hfit.
  - rewrite Hmsgs, app_nil_r. reflexivity.
  - inversion Hfit as [|? ? Hmsg Hrest]; subst.
    cbn [pass_frames pass_trace].
    assert (Hcur : nth_error (scroll_messages data) (List.length pre)
                   = Some msg).
    { rewrite Hmsgs, nth_error_app2 by lia. now rewrite Nat.sub_diag. }
    rewrite run_ticker_app. unfold frames_of at 1 2 3.
    rewrite (run_ticker_advancing width data (List.length pre) msg Hcur Hmsg)
      by (unfold INT_MAX in *; lia).
    cbn [fst snd].
    replace (S (List.length pre)) with (List.length (pre ++ [msg])%list)
      by (rewrite length_app; simpl; lia).
    rewrite (IH (pre ++ [msg])%list Hw)
      by (rewrite ?Hmsgs, <- ?app_assoc; assumption || reflexivity).
    reflexivity.
Qed.

(** X16: a pass over the list.  From the first message at the right edge,
    the frames show every message of the list in order, each one from
    the offset D down to minus its width, none skipped or cut short;
    the pass takes the sum of D + W + 1 frames over the messages and
    ends past the last index, and the frame after it draws the first
    message at D again. *)
Theorem ticker_full_pass width data :
  0 <= width <= INT_MAX ->
  scroll_messages data <> [] ->
  Forall (fun msg => 6 * Z.of_nat (String.length msg) <= INT_MAX)
         (scroll_messages data) ->
  let n := pass_frames width (scroll_messages data) in
  run_ticker width data n (mkTicker width 0)
  = (pass_trace width (scroll_colors data) 0 (scroll_messages data),
     mkTicker width (List.length (scroll_messages data)))
  /\ fst (draw_ticker width data (snd (run_ticker width data n
                                                   (mkTicker width 0))))
     = [mkDrawText width 31
          (ToMatrixColor (nth 0 (scroll_colors data) COL_BLACK))
          (nth 0 (scroll_messages data) "")].
Proof.
  intros Hw Hne Hfit n.
  assert (Hpass : run_ticker width data n (mkTicker width 0)
                  = (pass_trace width (scroll_colors data) 0
                                (scroll_messages data),
                     mkTicker width (List.length (scroll_messages data))))
    by (apply (ticker_pass width data (scroll_messages data) []);
        [exact Hw | reflexivity | exact Hfit]).
  split; [exact Hpass|]. rewrite Hpass. cbn [snd]. unfold draw_ticker.
  destruct (scroll_messages data) as [|m0 ms] eqn:Hmsgs; [contradiction|].
  cbn [msg_index scroll_x]. rewrite checked_index_wraps by lia.
  now destruct (_ <? _).
Qed.

Lemma ticker_full_pass_witness :
  run_ticker 3 small_ticker 26 (mkTicker 3 0)
  = ((scroll_trace COL_WHITE "ab" 3 16 ++ scroll_trace COL_RED "c" 3 10)%list,
     mkTicker 3 2).
Proof.
  destruct (ticker_full_pass 3 small_ticker) as [Hpass _].
  - vm_compute. split; discriminate.
  - discriminate.
  - repeat constructor; vm_compute; discriminate.
  - exact Hpass.
Defined.

(** ** The clock readout *)

Lemma fmt_02d_two v :
  0 <= v < 100 -> exists a c, fmt_02d v = String a (String c "").
Proof.
  intro Hv.
  assert (H : all_from 100 0
                (fun v => match fmt_02d v with
                          | String _ (String _ "") => true
                          | _ => false
                          end) = true) by (vm_compute; reflexivity).
  pose proof (all_from_spec _ _ _ H v) as Hok. cbv beta in Hok.
  destruct (fmt_02d v) as [|a [|c [|x s]]];
    try (discriminate Hok; simpl; lia).
  now exists a, c.
Qed.

Lemma second_parity l : ((l mod 86400) mod 60) mod 2 = l mod 2.
Proof.
  pose proof (Z.div_mod l 86400). pose proof (Z.mod_pos_bound l 86400).
  pose proof (Z.div_mod (l mod 86400) 60).
  pose proof (Z.mod_pos_bound (l mod 86400) 60).
  pose proof (Z.div_mod ((l mod 86400) mod 60) 2).
  pose proof (Z.mod_pos_bound ((l mod 86400) mod 60) 2).
  pose proof (Z.div_mod l 2). pose proof (Z.mod_pos_bound l 2).
  lia.
Qed.

Lemma colon_shown gmtoff t :
  negb (Z.rem (tm_sec (localtime gmtoff t)) 2 =? 0) = Z.odd (t + gmtoff).
Proof.
  destruct (localtime_ranges gmtoff t) as (Hsec & _).
  rewrite Z.rem_mod_nonneg by lia.
  assert (Hs : tm_sec (localtime gmtoff t) = ((t + gmtoff) mod 86400) mod 60).
  { unfold localtime. now destruct (civil_from_days _) as [[y m] d]. }
  rewrite Hs, second_parity, Zmod_odd.
  now destruct (Z.odd (t + gmtoff)).
Qed.

Lemma current_time_str_shape gmtoff t :
  exists h1 h2 m1 m2,
    current_time_str (localtime gmtoff t)
    = String h1 (String h2
        (String (if Z.odd (t + gmtoff) then ":" else " ")%char
           (String m1 (String m2 "")))).
Proof.
  unfold current_time_str. rewrite colon_shown.
  destruct (localtime_ranges gmtoff t) as (_ & Hmin & Hhour & _).
  destruct (fmt_02d_two (tm_hour (localtime gmtoff t))) as (h1 & h2 & ->);
    [lia|].
  destruct (fmt_02d_two (tm_min (localtime gmtoff t))) as (m1 & m2 & ->);
    [lia|].
  exists h1, h2, m1, m2. now destruct (Z.odd (t + gmtoff)).
Qed.

Lemma fmt_02d_digits v : 0 <= v < 100 -> fmt_02d v = two_digits v.
Proof.
  intro Hv.
  assert (H : all_from 100 0
                (fun v => String.eqb (fmt_02d v) (two_digits v)) = true)
    by (vm_compute; reflexivity).
  apply String.eqb_eq. apply (all_from_spec _ _ _ H). simpl. lia.
Qed.

Lemma decimal_digit_isdigit d : 0 <= d <= 9 -> isdigit (decimal_digit d) = true.
Proof.
  intro Hd.
  assert (H : all_from 10 0 (fun d => isdigit (decimal_digit d)) = true)
    by (vm_compute; reflexivity).
  apply (all_from_spec _ _ _ H). simpl. lia.
Qed.

Lemma two_digits_are_digits v :
  0 <= v < 100 ->
  isdigit (decimal_digit (v / 10)) = true
  /\ isdigit (decimal_digit (v mod 10)) = true.
Proof.
  intro Hv. pose proof (Z.div_mod v 10). pose proof (Z.mod_pos_bound v 10).
  split; apply decimal_digit_isdigit; lia.
Qed.

(** X17: the clock readout has five bytes at every instant (with its
    terminator it fills [time_buffer]): the two decimal digits of the
    hour (0 to 23), a separator, the two decimal digits of the minute
    (0 to 59).  The separator is a colon on odd seconds and a blank on
    even ones, so it changes every second. *)
Theorem clock_readout gmtoff t :
  let readout t := current_time_str (localtime gmtoff t) in
  let tm_now := localtime gmtoff t in
  String.length (readout t) = 5%nat
  /\ 0 <= tm_hour tm_now < 24 /\ 0 <= tm_min tm_now < 60
  /\ readout t
     = String (decimal_digit (tm_hour tm_now / 10))
         (String (decimal_digit (tm_hour tm_now mod 10))
            (String (if Z.odd (tm_sec tm_now) then ":" else " ")%char
               (String (decimal_digit (tm_min tm_now / 10))
                  (String (decimal_digit (tm_min tm_now mod 10)) ""))))
  /\ forallb isdigit
       [ decimal_digit (tm_hour tm_now / 10);
         decimal_digit (tm_hour tm_now mod 10);
         decimal_digit (tm_min tm_now / 10);
         decimal_digit (tm_min tm_now mod 10) ] = true
  /\ String.get 2 (readout t)
     = Some (if Z.odd (tm_sec tm_now) then ":" else " ")%char
  /\ String.get 2 (readout (t + 1)) <> String.get 2 (readout t).
Proof.
  intros readout tm_now. subst readout tm_now. cbv beta.
  destruct (localtime_ranges gmtoff t) as (Hsec & Hmin & Hhour & _).
  set (tm_now := localtime gmtoff t) in *.
  assert (Hodd : negb (Z.rem (tm_sec tm_now) 2 =? 0) = Z.odd (tm_sec tm_now)).
  { rewrite Z.rem_mod_nonneg, Zmod_odd by lia.
    now destruct (Z.odd (tm_sec tm_now)). }
  assert (Heq : current_time_str tm_now
                = String (decimal_digit (tm_hour tm_now / 10))
                    (String (decimal_digit (tm_hour tm_now mod 10))
                       (String (if Z.odd (tm_sec tm_now) then ":" else " ")%char
                          (String (decimal_digit (tm_min tm_now / 10))
                             (String (decimal_digit (tm_min tm_now mod 10))
                                ""))))).
  { unfold current_time_str. rewrite Hodd.
    rewrite !fmt_02d_digits by lia. unfold two_digits.
    now destruct (Z.odd (tm_sec tm_now)). }
  split; [rewrite Heq; reflexivity|].
  split; [exact Hhour|]. split; [exact Hmin|]. split; [exact Heq|].
  split.
  { destruct (two_digits_are_digits (tm_hour tm_now)) as [H1 H2]; [lia|].
    destruct (two_digits_are_digits (tm_min tm_now)) as [H3 H4]; [lia|].
    cbn [forallb]. now rewrite H1, H2, H3, H4. }
  split; [rewrite Heq; reflexivity|].
  subst tm_now.
  destruct (current_time_str_shape gmtoff t) as (h1 & h2 & m1 & m2 & Ht).
  destruct (current_time_str_shape gmtoff (t + 1))
    as (k1 & k2 & n1 & n2 & Ht1).
  rewrite Ht, Ht1. cbn [String.get].
  replace (t + 1 + gmtoff) with (Z.succ (t + gmtoff)) by lia.
  rewrite Z.odd_succ, <- Z.negb_odd.
  destruct (Z.odd (t + gmtoff)); discriminate.
Qed.

(** ** The two timers *)

Lemma seconds_between_le n later earlier :
  1 <= n ->
  (n <=? seconds_between later earlier)
  = (n * 1000000000 <=? later - earlier).
Proof.
  intro Hn. unfold seconds_between.
  set (d := later - earlier).
  pose proof (Z.quot_rem' d 1000000000) as Hq.
  destruct (Z_lt_le_dec d 0) as [Hd|Hd].
  - pose proof (Z.rem_bound_pos_neg d 1000000000).
    destruct (Z.leb_spec n (Z.quot d 1000000000)),
      (Z.leb_spec (n * 1000000000) d); try reflexivity; lia.
  - pose proof (Z.rem_bound_pos d 1000000000).
    destruct (Z.leb_spec n (Z.quot d 1000000000)),
      (Z.leb_spec (n * 1000000000) d); try reflexivity; lia.
Qed.

(** X18: the layout switches in an iteration exactly when five seconds
    or more of steady time have passed since the last switch (the
    truncation of the cast to seconds makes no difference), and so,
    whatever the instants of the iterations, two switches are never less
    than five seconds apart. *)
Theorem layout_switch_every_five_seconds :
  (forall now show last,
      toggle_step now (show, last)
      = if 5000000000 <=? now - last then (negb show, now) else (show, last))
  /\ forall nows st, spaced 5000000000 (snd st) (flips st nows).
Proof.
  assert (Hdue : forall now last,
             (TOGGLE_SECONDS <=? seconds_between now last)
             = (5000000000 <=? now - last)).
  { intros. unfold TOGGLE_SECONDS. now rewrite seconds_between_le by lia. }
  split.
  - intros. unfold toggle_step. cbn [fst snd]. now rewrite Hdue.
  - induction nows as [|now nows IH]; intros [show last];
      cbn [flips spaced snd]; [exact I|].
    specialize (IH (toggle_step now (show, last))).
    unfold toggle_step in *. cbn [fst snd] in *. rewrite Hdue in *.
    destruct (Z.leb_spec 5000000000 (now - last)); cbn [snd] in IH.
    + split; [lia | exact IH].
    + exact IH.
Qed.

(** X19: the documents are loaded in the first iteration, and after that
    in an iteration exactly when two seconds or more of steady time have
    passed since the last load: two loads are never less than two
    seconds apart. *)
Theorem reload_every_two_seconds :
  (forall now last, reload_due now true last = true)
  /\ (forall now last,
         reload_due now false last = (2000000000 <=? now - last))
  /\ forall nows last, spaced 2000000000 last (reloads false last nows).
Proof.
  assert (Hdue : forall now last,
             reload_due now false last = (2000000000 <=? now - last)).
  { intros. unfold reload_due. cbn [orb].
    now rewrite seconds_between_le by lia. }
  split; [reflexivity|]. split; [exact Hdue|].
  induction nows as [|now nows IH]; intro last; cbn [reloads spaced];
    [exact I|].
  rewrite Hdue. destruct (Z.leb_spec 2000000000 (now - last)).
  - split; [lia | apply IH].
  - apply IH.
Qed.

(** ** The date item *)

(** X20: at every instant the date message has 35 bytes, well inside
    the 64 bytes of [date_buf], and the weekday read from [wday_name] is
    one of its seven entries. *)
Theorem date_message_fits gmtoff t :
  String.length (date_buf (localtime gmtoff t)) = 35%nat
  /\ (Z.to_nat (tm_wday (localtime gmtoff t)) < List.length wday_name)%nat.
Proof.
  destruct (localtime_ranges gmtoff t)
    as (_ & _ & _ & Hmday & Hmon & Hwday).
  unfold date_buf.
  destruct (fmt_02d_two (tm_mon (localtime gmtoff t) + 1)) as (a1 & a2 & ->);
    [lia|].
  destruct (fmt_02d_two (tm_mday (localtime gmtoff t))) as (c1 & c2 & ->);
    [lia|].
  set (w := Z.to_nat (tm_wday (localtime gmtoff t))).
  assert (Hw : (w < 7)%nat) by (subst w; lia).
  split; [|exact Hw].
  do 7 (destruct w as [|w]; [reflexivity|]). lia.
Qed.

(** ** One iteration of the main loop *)

(** X21: what every iteration that completes leaves and draws.  From
    the first iteration on, the two vectors are in step and not empty,
    and the index of the cursor is at most their size.  The iteration
    clears the canvas, draws at most six row texts, then one ticker
    text, a message in its own colour at the offset the cursor had, and
    only then blanks the clock region and draws the five-byte clock and
    the two separators over it. *)
Theorem frame_keeps_the_ticker parse gmtoff width st inp ops st' :
  first_run st = true \/ in_step (current_data st) ->
  frame parse gmtoff width st inp = Return (ops, st') ->
  first_run st' = false
  /\ in_step (current_data st')
  /\ (msg_index (cursor st')
      <= List.length (scroll_messages (current_data st')))%nat
  /\ exists rows m c clock,
       ops = ([Fill 0 0 0] ++ map Text rows
                ++ [Text (mkDrawText (scroll_x (cursor st)) 31
                                     (ToMatrixColor c) m)]
                ++ clock_clear_lines width
                ++ [Text (mkDrawText (width - 28) 31 COL_WHITE clock)]
                ++ separators width)%list
       /\ (List.length rows <= 6)%nat
       /\ In (m, c) (combine (scroll_messages (current_data st'))
                             (scroll_colors (current_data st')))
       /\ String.length clock = 5%nat.
Proof.
  intros Hpre Hframe. unfold frame in Hframe.
  set (now := steady_now inp) in *.
  assert (Hdata : exists data last_load,
             (if reload_due now (first_run st) (last_load_time st)
              then rbind (refresh parse gmtoff inp (current_data st))
                         (fun data => Return (data, now, false))
              else Return (current_data st, last_load_time st, first_run st))
             = Return (data, last_load, false)
             /\ in_step data).
  { destruct (reload_due now (first_run st) (last_load_time st)) eqn:Hdue.
    - destruct (refresh parse gmtoff inp (current_data st)) as [data|e] eqn:Hr;
        [|try rewrite Hdue in Hframe; try rewrite Hr in Hframe;
          cbn [rbind] in Hframe; discriminate Hframe].
      exists data, now. split; [reflexivity|].
      unfold refresh, rbind in Hr.
      destruct (load_json parse (files inp) DEPARTURE_FILE) as [dep|];
        [|discriminate].
      destruct (load_json parse (files inp) OPERATION_FILE) as [op|];
        [|discriminate].
      destruct (load_json parse (files inp) WEATHER_FILE) as [w|];
        [|discriminate].
      pose proof (rebuilt_in_step gmtoff (wall_rebuild inp)
                    (mkData dep op w (scroll_messages (current_data st))
                            (scroll_colors (current_data st)))) as Hstep.
      destruct (update_scroll_messages _ _ _) as [[u|e] data'];
        [|discriminate].
      inversion Hr; subst data'. exact Hstep.
    - unfold reload_due in Hdue. apply orb_false_elim in Hdue.
      destruct Hdue as [Hfirst _].
      exists (current_data st), (last_load_time st).
      rewrite Hfirst. split; [reflexivity|].
      destruct Hpre as [Hp|Hp]; [congruence | exact Hp]. }
  destruct Hdata as (data & last_load & Hd & Hstep).
  rewrite Hd in Hframe. cbn [rbind] in Hframe.
  destruct (toggle_step now (show_alternate st, last_toggle_time st))
    as [show last_toggle].
  destruct (draw_departures gmtoff width show (wall_rows inp) data)
    as [rows|e] eqn:Hrows; [|discriminate].
  cbn [rbind] in Hframe.
  destruct (draw_ticker_in_step width data (cursor st) Hstep)
    as (m & c & cur & Hdraw & Hm & Hc & Hidx & _).
  rewrite Hdraw in Hframe.
  inversion Hframe; subst ops st'; clear Hframe.
  cbn [first_run current_data cursor].
  split; [reflexivity|]. split; [exact Hstep|]. split; [exact Hidx|].
  destruct (current_time_str_shape gmtoff (wall_disp inp))
    as (h1 & h2 & m1 & m2 & Hclock).
  exists rows, m, c, (current_time_str (localtime gmtoff (wall_disp inp))).
  split; [reflexivity|]. split.
  - unfold draw_departures in Hrows.
    destruct (negb (is_null (departure data)) && negb (empty (departure data))).
    + now apply (draw_items_shape _ _ _ _ _ _ Hrows).
    + inversion Hrows. simpl. lia.
  - split; [eapply nth_error_combine; eassumption|].
    now rewrite Hclock.
Qed.

Lemma frame_keeps_the_ticker_witness :
  exists ops st',
    frame sample_parse JST matrix_width (initial_loop matrix_width 0 0)
          (mkInput 0 sample_fs sample_time (fun _ => sample_time) sample_time)
    = Return (ops, st')
    /\ first_run st' = false
    /\ in_step (current_data st').
Proof.
  destruct (frame sample_parse JST matrix_width (initial_loop matrix_width 0 0)
              (mkInput 0 sample_fs sample_time (fun _ => sample_time)
                       sample_time)) as [[ops st']|e] eqn:Hframe.
  - exists ops, st'. split; [reflexivity|].
    destruct (frame_keeps_the_ticker
                sample_parse JST matrix_width (initial_loop matrix_width 0 0)
                _ ops st' (or_introl (eq_refl true)) Hframe)
      as (Hfirst & Hstep & _).
    split; assumption.
  - vm_compute in Hframe. discriminate Hframe.
Defined.
